(** * osangsystem: the verification-code relay bot (src/index.js)

    A shallow embedding of the bot's in-memory stores, of the timers it
    installs in the JavaScript runtime, and of its event handlers, followed
    by the properties of the notification lifecycle.

    Conventions of the embedding:
    - the three module-level [Map]s are fields of [World]; the runtime's
      table of active timers and the calls issued to the chat transport are
      fields too, so that every handler is a function on [World];
    - what the environment decides (whether a transport call is accepted,
      the message id it returns, the value of [Date.now()]) is an argument
      of the handler that observes it;
    - JSON scalars are [JsVal]; numbers are integers and strings are the
      bytes of their UTF-8 encoding; [console.log] calls are not
      modelled. *)

From Stdlib Require Import Ascii String ZArith.
From stdpp Require Import gmap strings list fin_maps pretty.

Local Open Scope Z_scope.
Local Open Scope string_scope.

(** ** JavaScript values and string primitives *)

Module Js.

(** The scalars a JSON body can carry, plus [undefined] for a missing
    property. *)
Inductive JsVal :=
| JUndefined
| JNull
| JBool (b : bool)
| JNum (z : Z)
| JStr (s : string).

#[export] Instance JsVal_eq_dec : EqDecision JsVal.
Proof. solve_decision. Defined.

(** [ToBoolean]. *)
Definition truthy (v : JsVal) : bool :=
  match v with
  | JUndefined | JNull => false
  | JBool b => b
  | JNum z => negb (z =? 0)%Z
  | JStr s => negb (String.eqb s "")
  end.

(** [String(v)] and template-literal interpolation. *)
Definition to_string (v : JsVal) : string :=
  match v with
  | JUndefined => "undefined"
  | JNull => "null"
  | JBool true => "true"
  | JBool false => "false"
  | JNum z => pretty z
  | JStr s => s
  end.

(** [a || b]. *)
Definition or_else (a b : JsVal) : JsVal := if truthy a then a else b.

(** Truthiness of a value that is a string or [null]. *)
Definition truthy_str (o : option string) : bool :=
  match o with
  | None => false
  | Some s => negb (String.eqb s "")
  end.

(** Interpolation of a value that is a string or [null]. *)
Definition show_str (o : option string) : string :=
  match o with
  | None => "null"
  | Some s => s
  end.

Definition nl : string := String (ascii_of_nat 10) "".

(** [\d] without the unicode flag: '0'..'9'. *)
Definition is_digit (c : ascii) : bool :=
  let n := nat_of_ascii c in (48 <=? n)%nat && (n <=? 57)%nat.

Fixpoint startsWith (s p : string) : bool :=
  match p, s with
  | EmptyString, _ => true
  | String a p', String b s' => Ascii.eqb a b && startsWith s' p'
  | String _ _, EmptyString => false
  end.

(** The text with the given bytes. *)
Definition bytes (l : list Z) : string :=
  fold_right (λ n s, String (ascii_of_nat (Z.to_nat n)) s) EmptyString l.

(** What [String.prototype.trim] removes: the WhiteSpace and
    LineTerminator code points of ECMAScript, in UTF-8.  TAB, LF, VT, FF,
    CR and SP; U+00A0; U+1680; U+2000 to U+200A; U+2028 and U+2029;
    U+202F; U+205F; U+3000; U+FEFF. *)
Definition white_space : list string :=
  map bytes
    [ [9]; [10]; [11]; [12]; [13]; [32];
      [194; 160];
      [225; 154; 128];
      [226; 128; 128]; [226; 128; 129]; [226; 128; 130]; [226; 128; 131];
      [226; 128; 132]; [226; 128; 133]; [226; 128; 134]; [226; 128; 135];
      [226; 128; 136]; [226; 128; 137]; [226; 128; 138];
      [226; 128; 168]; [226; 128; 169];
      [226; 128; 175];
      [226; 129; 159];
      [227; 128; 128];
      [239; 187; 191] ].

(** The number of bytes of the white-space code point [s] starts with, 0
    when it starts with none. *)
Definition space_len (s : string) : nat :=
  match List.find (startsWith s) white_space with
  | Some w => String.length w
  | None => 0%nat
  end.

(** [skip] bytes of a white-space code point are still to be dropped. *)
Fixpoint trimStart_go (skip : nat) (s : string) {struct s} : string :=
  match s with
  | String _ r =>
      match skip with
      | S k => trimStart_go k r
      | O => match space_len s with
             | S k => trimStart_go k r
             | O => s
             end
      end
  | EmptyString => EmptyString
  end.

Definition trimStart (s : string) : string := trimStart_go 0 s.

(** Whether [s] consists of white-space code points only. *)
Fixpoint all_space_go (skip : nat) (s : string) {struct s} : bool :=
  match s with
  | String _ r =>
      match skip with
      | S k => all_space_go k r
      | O => match space_len s with
             | S k => all_space_go k r
             | O => false
             end
      end
  | EmptyString => true
  end.

Definition all_space (s : string) : bool := all_space_go 0 s.

(** The text up to where only white space follows. *)
Fixpoint trimEnd (s : string) : string :=
  if all_space s then EmptyString
  else match s with
       | String c r => String c (trimEnd r)
       | EmptyString => EmptyString
       end.

Definition trim (s : string) : string := trimEnd (trimStart s).

(** [s.slice(n)]. *)
Fixpoint slice (n : nat) (s : string) : string :=
  match n, s with
  | O, _ => s
  | S n', String _ r => slice n' r
  | S _, EmptyString => EmptyString
  end.

(** [s.replace(pat, rep)] with a string pattern: the first occurrence. *)
Fixpoint replace (pat rep s : string) : string :=
  if startsWith s pat then rep +:+ slice (String.length pat) s
  else match s with
       | String c r => String c (replace pat rep r)
       | EmptyString => EmptyString
       end.

(** [s.replace(/\D/g, "")]: every non-digit removed. *)
Fixpoint strip_non_digits (s : string) : string :=
  match s with
  | String c r =>
      if is_digit c then String c (strip_non_digits r) else strip_non_digits r
  | EmptyString => EmptyString
  end.

(** [s.includes(p)]. *)
Fixpoint includes (s p : string) : bool :=
  startsWith s p ||
  match s with
  | String _ r => includes r p
  | EmptyString => false
  end.

End Js.
Import Js.

(** ** The chat transport, as the calls issued to it *)

Record Button := mkButton { b_text : string; callback_data : string }.

(** One entry per call on the transport, in program order.  A call whose
    promise the handler awaits carries the outcome the handler saw. *)
Inductive Effect :=
| Reply (chat : Z) (text parse_mode : string) (result : option Z)
| AnswerCbQuery (text : string) (show_alert : bool) (accepted : bool)
| SendMessage (chat text : string) (inline_keyboard : list (list Button))
              (accepted : bool)
| DeleteMessage (chat message : Z)
| SendChatAction (chat action : string).

(** ** Timers of the runtime *)

(** The two closures the program hands to [setTimeout] / [setInterval],
    with the variables they capture. *)
Inductive Callback :=
| DeleteCb (chatId messageId : Z) (key : string)
| TypingCb (userId : string).

Inductive TimerKind := OneShot | Repeating.

Record Timer := mkTimer {
  t_kind : TimerKind;
  t_cb : Callback;
  t_delay : Z
}.

#[export] Instance TimerKind_eq_dec : EqDecision TimerKind.
Proof. solve_decision. Defined.
#[export] Instance Callback_eq_dec : EqDecision Callback.
Proof. solve_decision. Defined.
#[export] Instance Timer_eq_dec : EqDecision Timer.
Proof. solve_decision. Defined.

(** ** Stores *)

Record Submission := mkSubmission {
  userId : option string;
  code : JsVal;
  telegramPhone : string;
  username : JsVal;
  firstName : JsVal
}.

Record World := mkWorld {
  userPhones : gmap string string;
  submissions : gmap string Submission;
  scheduledDeletions : gmap string nat;
  timers : gmap nat Timer;
  next_handle : nat;
  outbox : list Effect
}.

Definition init : World :=
  {| userPhones := ∅; submissions := ∅; scheduledDeletions := ∅;
     timers := ∅; next_handle := 0%nat; outbox := [] |}.

Definition set_userPhones (f : gmap string string → gmap string string)
    (w : World) : World :=
  mkWorld (f (userPhones w)) (submissions w) (scheduledDeletions w)
          (timers w) (next_handle w) (outbox w).

Definition set_submissions
    (f : gmap string Submission → gmap string Submission) (w : World) : World :=
  mkWorld (userPhones w) (f (submissions w)) (scheduledDeletions w)
          (timers w) (next_handle w) (outbox w).

Definition set_scheduledDeletions (f : gmap string nat → gmap string nat)
    (w : World) : World :=
  mkWorld (userPhones w) (submissions w) (f (scheduledDeletions w))
          (timers w) (next_handle w) (outbox w).

Definition set_timers (f : gmap nat Timer → gmap nat Timer) (w : World) : World :=
  mkWorld (userPhones w) (submissions w) (scheduledDeletions w)
          (f (timers w)) (next_handle w) (outbox w).

Definition emit (e : Effect) (w : World) : World :=
  mkWorld (userPhones w) (submissions w) (scheduledDeletions w)
          (timers w) (next_handle w) (outbox w ++ [e]).

(** *** Runtime primitives *)

(** [setTimeout] / [setInterval]: a handle never seen before. *)
Definition install (k : TimerKind) (cb : Callback) (delay : Z) (w : World)
    : nat * World :=
  let h := next_handle w in
  (h, mkWorld (userPhones w) (submissions w) (scheduledDeletions w)
              (<[h := mkTimer k cb delay]> (timers w)) (S h) (outbox w)).

Definition setTimeout := install OneShot.
Definition setInterval := install Repeating.

(** [clearTimeout] / [clearInterval], read strictly: each cancels only a
    timer of its own kind. *)
Definition clear (k : TimerKind) (h : nat) (w : World) : World :=
  match timers w !! h with
  | Some t => if decide (t_kind t = k) then set_timers (delete h) w else w
  | None => w
  end.

Definition clearTimeout := clear OneShot.
Definition clearInterval := clear Repeating.

(** ** Handlers as computations over [World]

    An [await] on the transport either resumes with a value or rejects; a
    rejection aborts the rest of the handler, keeping what was done. *)

Inductive Res (A : Type) :=
| Ok (a : A)
| Rejected.
Arguments Ok {A} a.
Arguments Rejected {A}.

Definition M (A : Type) : Type := World → Res A * World.

#[export] Instance M_ret : MRet M := λ A a w, (Ok a, w).
#[export] Instance M_bind : MBind M := λ A B k m w,
  match m w with
  | (Ok a, w') => k a w'
  | (Rejected, w') => (Rejected, w')
  end.

Definition get : M World := λ w, (Ok w, w).
Definition modify (f : World → World) : M unit := λ w, (Ok tt, f w).
Definition world_of {A} (r : Res A * World) : World := r.2.

(** *** Utility functions (index.js, lines 20-40) *)

Definition DEFAULT_DELAY : Z := 30 * 60 * 1000.

Definition deletion_key (chatId messageId : Z) : string :=
  pretty chatId +:+ ":" +:+ pretty messageId.

Definition scheduleDelete (chatId messageId delayMs : Z) (w : World) : World :=
  let key := deletion_key chatId messageId in
  let w1 := match scheduledDeletions w !! key with
            | Some h => clearTimeout h w
            | None => w
            end in
  let '(timeoutId, w2) := setTimeout (DeleteCb chatId messageId key) delayMs w1 in
  set_scheduledDeletions <[key := timeoutId]> w2.

Record Ctx := mkCtx { chat_id : Z; from_id : Z }.

(** [await ctx.reply(text, extra)]; [result] is the id of the message the
    transport created, or [None] when the promise rejects. *)
Definition ctx_reply (ctx : Ctx) (text parse_mode : string) (result : option Z)
    : M Z :=
  λ w, let w' := emit (Reply (chat_id ctx) text parse_mode result) w in
       match result with
       | Some message_id => (Ok message_id, w')
       | None => (Rejected, w')
       end.

Definition answerCbQuery (text : string) (show_alert accepted : bool) : M unit :=
  λ w, let w' := emit (AnswerCbQuery text show_alert accepted) w in
       if accepted then (Ok tt, w') else (Rejected, w').

Definition replyAndAutoDelete (ctx : Ctx) (text extra : string)
    (result : option Z) : M Z :=
  msg ← ctx_reply ctx text extra result;
  modify (scheduleDelete (chat_id ctx) msg DEFAULT_DELAY);;
  mret msg.

(** *** Bot commands (lines 42-137) *)

Definition on_start (ctx : Ctx) (payload : string) (result : option Z) : M unit :=
  if truthy (JStr payload) && startsWith payload "verify_" then
    let code := replace "verify_" "" payload in
    replyAndAutoDelete ctx
      ("Verification code: <b>" +:+ code +:+ "</b>" +:+ nl +:+ nl +:+
       "Paki-type ang Telegram phone number mo.") "HTML" result;;
    mret tt
  else
    replyAndAutoDelete ctx "Welcome! Paki-send ang phone number or code."
      "HTML" result;;
    mret tt.

Definition isPhone (text : string) : bool :=
  startsWith text "+" || (10 <=? String.length (strip_non_digits text))%nat.

Definition on_text (ctx : Ctx) (message_text : string) (result : option Z)
    : M unit :=
  let text := trim message_text in
  let userId := pretty (from_id ctx) in
  if isPhone text then
    modify (set_userPhones <[userId := text]>);;
    replyAndAutoDelete ctx
      "Phone saved! Kung may code ka mula sa website, i-send lang dito."
      "HTML" result;;
    mret tt
  else
    replyAndAutoDelete ctx "Code received." "HTML" result;;
    mret tt.

Definition typing_key (userId : string) : string := "typing_" +:+ userId.

Definition stopTypingLoop (userId : option string) (w : World) : World :=
  let key := typing_key (show_str userId) in
  match scheduledDeletions w !! key with
  | Some h => set_scheduledDeletions (delete key) (clearInterval h w)
  | None => w
  end.

Definition approved_text (data : Submission) : string :=
  "Approved submission:" +:+ nl +:+
  "User: " +:+ to_string (firstName data) +:+
  " (@" +:+ to_string (username data) +:+ ")" +:+ nl +:+
  "Phone: " +:+ telegramPhone data +:+ nl +:+
  "Code: " +:+ to_string (code data).

Definition rejected_text (userId : option string) : string :=
  "❌ Rejected submission of user ID: " +:+ show_str userId.

(** [submissionId] is [ctx.match[1]]. *)
Definition on_approve (ctx : Ctx) (submissionId : string)
    (accepted : bool) (result : option Z) : M unit :=
  w ← get;
  match submissions w !! submissionId with
  | None => answerCbQuery "Not found or expired" true accepted
  | Some data =>
      let userId := userId data in
      modify (stopTypingLoop userId);;
      answerCbQuery "Approved" false accepted;;
      replyAndAutoDelete ctx (approved_text data) "HTML" result;;
      mret tt
  end.

Definition on_reject (ctx : Ctx) (submissionId : string)
    (accepted : bool) (result : option Z) : M unit :=
  w ← get;
  match submissions w !! submissionId with
  | None => answerCbQuery "Not found or expired" true accepted
  | Some data =>
      let userId := userId data in
      modify (stopTypingLoop userId);;
      answerCbQuery "Rejected" false accepted;;
      replyAndAutoDelete ctx (rejected_text userId) "HTML" result;;
      mret tt
  end.

(** *** Express endpoint (lines 139-216) *)

Module Req.
Record TgUser := mkTgUser { id : JsVal; username : JsVal; first_name : JsVal }.
Record Body := mkBody { code : JsVal; tgUser : option TgUser }.
End Req.

Record Response := mkResponse {
  status : Z;
  ok : bool;
  error : option string
}.

(** [tgUser?.f]. *)
Definition opt_chain (f : Req.TgUser → JsVal) (o : option Req.TgUser) : JsVal :=
  match o with
  | Some u => f u
  | None => JUndefined
  end.

(** The block under "TYPING ONLY EFFECT" (lines 172-190). *)
Definition typing_only_effect (userId : option string) (w : World) : World :=
  if truthy_str userId then
    let w1 := stopTypingLoop userId w in
    let '(intervalId, w2) := setInterval (TypingCb (show_str userId)) 4000 w1 in
    set_scheduledDeletions <[typing_key (show_str userId) := intervalId]> w2
  else w.

Definition logText (userId : option string) (firstName username : JsVal)
    (telegramPhone : string) (code : JsVal) : string :=
  "🔔 New verification request" +:+ nl +:+ nl +:+
  "👤 User: " +:+ to_string firstName +:+
  " (@" +:+ to_string username +:+ ")" +:+ nl +:+
  "🆔 ID: " +:+ show_str userId +:+ nl +:+
  "📱 Phone: " +:+ telegramPhone +:+ nl +:+ nl +:+
  "🔑 Code: " +:+ to_string code.

Definition decision_keyboard (submissionId : string) : list (list Button) :=
  [[ mkButton "✅ Approve" ("approve:" +:+ submissionId);
     mkButton "❌ Reject" ("reject:" +:+ submissionId) ]].

Section Bot.

(** [process.env.ADMIN_CHAT_ID], checked non-empty at start-up. *)
Variable ADMIN_CHAT_ID : string.

(** Lines 156-161: the values computed from the request. *)
Definition userId_of (tgUser : option Req.TgUser) : option string :=
  if truthy (opt_chain Req.id tgUser)
  then Some (to_string (opt_chain Req.id tgUser)) else None.

Definition telegramPhone_of (userId : option string) (w : World) : string :=
  if truthy_str userId then
    match userPhones w !! show_str userId with
    | Some p => if negb (String.eqb p "") then p else "Unknown phone"
    | None => "Unknown phone"
    end
  else "Unknown phone".

Definition submissionId_of (userId : option string) (now : Z) : string :=
  (if truthy_str userId then show_str userId else "unknown")
  +:+ "_" +:+ pretty now.

(** [now] is [Date.now()]; [accepted] tells whether the transport took the
    reviewer notification (a rejection lands in the [catch]). *)
Definition api_log_code (body : Req.Body) (now : Z) (accepted : bool)
    (w : World) : Response * World :=
  let code := Req.code body in
  let tgUser := Req.tgUser body in
  if negb (truthy code) then
    (mkResponse 400 false (Some "Code required"), w)
  else
    let userId := userId_of tgUser in
    let username := or_else (opt_chain Req.username tgUser) (JStr "") in
    let firstName := or_else (opt_chain Req.first_name tgUser) (JStr "") in
    let telegramPhone := telegramPhone_of userId w in
    let submissionId := submissionId_of userId now in
    let w1 :=
      set_submissions
        <[submissionId :=
            mkSubmission userId code telegramPhone username firstName]> w in
    let w2 := typing_only_effect userId w1 in
    let w3 :=
      emit (SendMessage ADMIN_CHAT_ID
              (logText userId firstName username telegramPhone code)
              (decision_keyboard submissionId) accepted) w2 in
    if accepted then (mkResponse 200 true None, w3)
    else (mkResponse 500 false (Some "Internal server error"), w3).

(** *** The event loop *)

Definition run_callback (cb : Callback) (w : World) : World :=
  match cb with
  | DeleteCb chatId messageId key =>
      set_scheduledDeletions (delete key)
        (emit (DeleteMessage chatId messageId) w)
  | TypingCb userId => emit (SendChatAction userId "typing") w
  end.

(** The runtime runs the callback of timer [h], if it is still active; a
    one-shot timer is retired as it runs. *)
Definition fire (h : nat) (w : World) : World :=
  match timers w !! h with
  | Some t =>
      run_callback (t_cb t)
        match t_kind t with
        | OneShot => set_timers (delete h) w
        | Repeating => w
        end
  | None => w
  end.

(** What the event loop can run in one turn: a handler with the answers of
    the environment, a timer, or one of the synchronous stretches of a
    handler that touch the timer registry (so that handlers suspended at an
    [await] may interleave). *)
Inductive Event :=
| EvStart (ctx : Ctx) (payload : string) (result : option Z)
| EvText (ctx : Ctx) (text : string) (result : option Z)
| EvApprove (ctx : Ctx) (submissionId : string) (accepted : bool)
            (result : option Z)
| EvReject (ctx : Ctx) (submissionId : string) (accepted : bool)
           (result : option Z)
| EvLogCode (body : Req.Body) (now : Z) (accepted : bool)
| EvTimer (h : nat)
| EvScheduleDelete (chatId messageId delayMs : Z)
| EvStartTyping (userId : option string)
| EvStopTyping (userId : option string).

Definition step (w : World) (e : Event) : World :=
  match e with
  | EvStart ctx payload r => world_of (on_start ctx payload r w)
  | EvText ctx text r => world_of (on_text ctx text r w)
  | EvApprove ctx sid a r => world_of (on_approve ctx sid a r w)
  | EvReject ctx sid a r => world_of (on_reject ctx sid a r w)
  | EvLogCode body now a => (api_log_code body now a w).2
  | EvTimer h => fire h w
  | EvScheduleDelete c m d => scheduleDelete c m d w
  | EvStartTyping u => typing_only_effect u w
  | EvStopTyping u => stopTypingLoop u w
  end.

Definition run (es : list Event) (w : World) : World := fold_left step es w.

(** ** The registry discipline *)

(** The registry key a callback belongs to: a deletion callback carries
    its key, a typing callback is filed under [typing_<userId>]. *)
Definition cb_key (cb : Callback) : string :=
  match cb with
  | DeleteCb _ _ key => key
  | TypingCb userId => typing_key userId
  end.

(** Deletions are one-shot and keyed [chatId:messageId]; typing loops
    repeat. *)
Definition well_kinded (t : Timer) : Prop :=
  match t_cb t with
  | DeleteCb chatId messageId key =>
      t_kind t = OneShot ∧ key = deletion_key chatId messageId
  | TypingCb _ => t_kind t = Repeating
  end.

(** Active timers and registry entries are in one-to-one correspondence. *)
Record registry_ok (w : World) : Prop := mkRegistryOk {
  live_registered : ∀ h t,
    timers w !! h = Some t → scheduledDeletions w !! cb_key (t_cb t) = Some h;
  registered_live : ∀ k h,
    scheduledDeletions w !! k = Some h →
    ∃ t, timers w !! h = Some t ∧ cb_key (t_cb t) = k;
  live_below : ∀ h t, timers w !! h = Some t → (h < next_handle w)%nat;
  live_kinded : ∀ h t, timers w !! h = Some t → well_kinded t
}.

(** The handles of the active timers filed under key [k]. *)
Definition live_under (k : string) (w : World) : list nat :=
  (map_to_list (filter (λ p : nat * Timer, cb_key (t_cb p.2) = k) (timers w))).*1.

(** A handle that was issued and is no longer active. *)
Definition retired (h : nat) (w : World) : Prop :=
  timers w !! h = None ∧ (h < next_handle w)%nat.

(** The stretch that [on_approve] and [on_reject] share once the record is
    found, up to the acknowledgement label and the confirmation text. *)
Definition decide_found (label text : string) (ctx : Ctx)
    (u : option string) (a : bool) (r : option Z) : M unit :=
  modify (stopTypingLoop u);;
  answerCbQuery label false a;;
  replyAndAutoDelete ctx text "HTML" r;;
  mret tt.

(** The first character of a string. *)
Definition head_char (s : string) : option ascii :=
  match s with
  | String c _ => Some c
  | EmptyString => None
  end.

(** A string that starts like a printed integer; tells the deletion keys
    from the typing keys. *)
Definition numeric_head (s : string) : Prop :=
  ∃ c, head_char s = Some c ∧ (is_digit c = true ∨ c = "-"%char).

(** The deletion of message [mid] of chat [chat] is pending: the registry
    files, under [chat:mid], an active one-shot timer of 1,800,000 ms whose
    callback deletes that message. *)
Definition expiry_scheduled (chat mid : Z) (w : World) : Prop :=
  ∃ h, scheduledDeletions w !! deletion_key chat mid = Some h
       ∧ timers w !! h
         = Some (mkTimer OneShot (DeleteCb chat mid (deletion_key chat mid))
                   1800000).

(** Transport calls that create no message. *)
Definition quiet (e : Effect) : Prop :=
  match e with
  | Reply _ _ _ _ | SendMessage _ _ _ _ => False
  | _ => True
  end.

(** The transport calls issued between [w] and a later world [w']. *)
Definition new_effects (w w' : World) : list Effect :=
  drop (length (outbox w)) (outbox w').

(** What a turn that is not a submission owes to the messages it sent:
    each reply the transport created has its deletion pending, and no
    other message was sent. *)
Definition replies_expire (w w' : World) : Prop :=
  (∀ chat text pm mid,
     Reply chat text pm (Some mid) ∈ new_effects w w' →
     expiry_scheduled chat mid w')
  ∧ (∀ chat text kb a, SendMessage chat text kb a ∉ new_effects w w').

(** ** The phone heuristic as the specification words it

    "Trim the text; classify as phone iff the trimmed text starts with '+'
    or the count of digit characters in it is at least 10; otherwise
    classify as code/other."  To be compared with [isPhone] above. *)

Inductive Classification := Phone | CodeOrOther.

Fixpoint count_digits (s : string) : nat :=
  match s with
  | String c r => ((if is_digit c then 1 else 0) + count_digits r)%nat
  | EmptyString => 0%nat
  end.

Definition spec_classify (message_text : string) : Classification :=
  let t := trim message_text in
  if bool_decide (head_char t = Some "+"%char ∨ (10 ≤ count_digits t)%nat)
  then Phone else CodeOrOther.

(** The branch [on_text] takes. *)
Definition classify (message_text : string) : Classification :=
  if isPhone (trim message_text) then Phone else CodeOrOther.

(** ** A sample session

    User 42 sends a phone number to the bot, then submits the code 445566
    on the web form; the reviewer sits in chat 7000. *)

Definition ana : Req.TgUser := Req.mkTgUser (JNum 42) (JStr "ana") (JStr "Ana").
Definition ana_post : Req.Body := Req.mkBody (JStr "445566") (Some ana).
Definition ana_chat : Ctx := mkCtx 42 42.
Definition reviewer_chat : Ctx := mkCtx 7000 7000.
Definition anonymous_post : Req.Body := Req.mkBody (JStr "445566") None.

Definition ana_record : Submission :=
  mkSubmission (Some "42") (JStr "445566") "+639171234567"
    (JStr "ana") (JStr "Ana").

Definition sample_session : list Event :=
  [ EvText ana_chat "+639171234567" (Some 11);
    EvLogCode ana_post 1700000000000 true ].

(** ** Callback payloads

    The two [bot.action] triggers are the regular expressions
    [/approve:(.+)/] and [/reject:(.+)/], run with [exec] on the payload of
    the button that was pressed; the handlers read the submission id off
    the first capture group.  Telegraf tries the triggers in the order of
    registration and runs the handler of the first that matches. *)

Definition LF : string := String (ascii_of_nat 10) "".
Definition CR : string := String (ascii_of_nat 13) "".
(** U+2028 and U+2029 in UTF-8. *)
Definition LS : string :=
  String (ascii_of_nat 226) (String (ascii_of_nat 128) (String (ascii_of_nat 168) "")).
Definition PS : string :=
  String (ascii_of_nat 226) (String (ascii_of_nat 128) (String (ascii_of_nat 169) "")).

(** [.] matches anything but a line terminator. *)
Definition at_line_terminator (s : string) : bool :=
  startsWith s LF || startsWith s CR || startsWith s LS || startsWith s PS.

(** What a greedy [.*] takes from the front of [s]. *)
Fixpoint dot_star (s : string) : string :=
  match s with
  | String c r => if at_line_terminator s then EmptyString else String c (dot_star r)
  | EmptyString => EmptyString
  end.

(** [/<prefix>(.+)/.exec(data)], first capture group: the leftmost place
    where [prefix] is followed by at least one character that [.] takes. *)
Fixpoint exec_action (prefix data : string) : option string :=
  let here :=
    if startsWith data prefix then
      match dot_star (slice (String.length prefix) data) with
      | EmptyString => None
      | cap => Some cap
      end
    else None in
  match here, data with
  | Some cap, _ => Some cap
  | None, String _ r => exec_action prefix r
  | None, EmptyString => None
  end.

(** A press on an inline button, with the payload Telegram hands back. *)
Definition on_callback_query (ctx : Ctx) (data : string)
    (accepted : bool) (result : option Z) : M unit :=
  match exec_action "approve:" data with
  | Some submissionId => on_approve ctx submissionId accepted result
  | None =>
      match exec_action "reject:" data with
      | Some submissionId => on_reject ctx submissionId accepted result
      | None => mret tt
      end
  end.

(** ** Auxiliary notions for the properties *)

(** Whether character [c] occurs in [s]. *)
Fixpoint occurs (c : ascii) (s : string) : bool :=
  match s with
  | String a r => Ascii.eqb c a || occurs c r
  | EmptyString => false
  end.

(** Every character of [s] is a decimal digit or a minus sign. *)
Fixpoint numeric (s : string) : bool :=
  match s with
  | String a r => (is_digit a || Ascii.eqb a "-") && numeric r
  | EmptyString => true
  end.

(** The user whose typing entry an event may create or remove. *)
Definition typing_target (w : World) (e : Event) : option string :=
  match e with
  | EvApprove _ sid _ _ | EvReject _ sid _ _ =>
      (λ data, show_str (userId data)) <$> submissions w !! sid
  | EvLogCode b _ _ =>
      if truthy (Req.code b) then userId_of (Req.tgUser b) else None
  | EvStartTyping u => if truthy_str u then Some (show_str u) else None
  | EvStopTyping u => Some (show_str u)
  | _ => None
  end.

(** The typing period is the constant of line 182. *)
Definition typing_period_ok (w : World) : Prop :=
  ∀ h t u, timers w !! h = Some t → t_cb t = TypingCb u → t_delay t = 4000.

(** Every entry of the Phone Directory passed the phone heuristic. *)
Definition phones_ok (w : World) : Prop :=
  ∀ k p, userPhones w !! k = Some p → isPhone p = true.

(** The registry is consistent and holds timer [t] under handle [h] at
    key [k]. *)
Definition entry_intact (k : string) (h : nat) (t : Timer) (w : World) : Prop :=
  registry_ok w ∧ scheduledDeletions w !! k = Some h ∧ timers w !! h = Some t.

(** The user part of a submission id (line 161). *)
Definition id_label (userId : option string) : string :=
  if truthy_str userId then show_str userId else "unknown".

(** The record the intake stores for [body] in state [w] (lines 156-169). *)
Definition record_of (body : Req.Body) (w : World) : Submission :=
  let tgUser := Req.tgUser body in
  mkSubmission (userId_of tgUser) (Req.code body)
    (telegramPhone_of (userId_of tgUser) w)
    (or_else (opt_chain Req.username tgUser) (JStr ""))
    (or_else (opt_chain Req.first_name tgUser) (JStr "")).

(** No event of [es] is a text from Telegram user [z] that the heuristic
    takes for a phone number. *)
Definition no_phone_from (z : Z) (es : list Event) : Prop :=
  Forall (λ e, match e with
               | EvText ctx text _ =>
                   from_id ctx = z → isPhone (trim text) = false
               | _ => True
               end) es.

(** * Properties *)

(** ** Keys *)

Lemma pretty_N_char_digit (x : N) : is_digit (pretty_N_char x) = true.
Proof. unfold pretty_N_char. by repeat case_match. Qed.

Lemma pretty_N_go_head (x : N) (s : string) :
  numeric_head s → numeric_head (pretty_N_go x s).
Proof.
  revert s. induction (N.lt_wf_0 x) as [x _ IH]; intros s Hs.
  destruct (decide (x = 0%N)) as [->|Hx].
  - by rewrite pretty_N_go_0.
  - rewrite pretty_N_go_step by lia.
    apply IH; [apply N.div_lt; lia|].
    eexists; split; [done|]. left. apply pretty_N_char_digit.
Qed.

Lemma pretty_positive_head (p : positive) : numeric_head (pretty (N.pos p)).
Proof.
  unfold pretty, pretty_N. case_decide; [done|].
  rewrite pretty_N_go_step by lia.
  apply pretty_N_go_head.
  eexists; split; [done|]. left. apply pretty_N_char_digit.
Qed.

Lemma pretty_Z_head (z : Z) : numeric_head (pretty z).
Proof.
  destruct z as [|p|p].
  - exists "0"%char. split; [done|by left].
  - apply pretty_positive_head.
  - exists "-"%char. split; [done|by right].
Qed.

Lemma deletion_key_head (c m : Z) : numeric_head (deletion_key c m).
Proof.
  unfold deletion_key. destruct (pretty_Z_head c) as (a & Ha & Hd).
  destruct (pretty c) as [|a' r]; [done|].
  exists a'. by simplify_eq/=.
Qed.

Lemma deletion_key_not_typing (c m : Z) (u : string) :
  deletion_key c m ≠ typing_key u.
Proof.
  intros Heq. destruct (deletion_key_head c m) as (a & Ha & Hd).
  rewrite Heq in Ha. simpl in Ha. injection Ha as <-.
  by destruct Hd.
Qed.


(** ** The registry invariant is kept by every primitive *)

Lemma registry_ok_init : registry_ok init.
Proof. split; intros *; simpl; by rewrite ?lookup_empty. Qed.

Lemma registry_ok_ext (w w' : World) :
  timers w' = timers w →
  scheduledDeletions w' = scheduledDeletions w →
  next_handle w' = next_handle w →
  registry_ok w → registry_ok w'.
Proof.
  intros Ht Hr Hn [A B C D].
  split; intros *; rewrite ?Ht, ?Hr, ?Hn; eauto.
Qed.

Lemma clear_live (k : TimerKind) (h : nat) (t : Timer) (w : World) :
  timers w !! h = Some t → t_kind t = k → clear k h w = set_timers (delete h) w.
Proof. intros Ht Hk. unfold clear. rewrite Ht. by rewrite decide_True. Qed.

(** Cancelling the timer of an occupied key and dropping the entry. *)
Lemma cancel_ok (k : string) (h : nat) (w : World) :
  registry_ok w →
  scheduledDeletions w !! k = Some h →
  registry_ok (set_scheduledDeletions (delete k) (set_timers (delete h) w)).
Proof.
  intros [A B C D] Hk.
  destruct (B _ _ Hk) as (t0 & Ht0 & Hk0).
  split; simpl.
  - intros h' t Ht. apply lookup_delete_Some in Ht as [Hne Ht].
    rewrite lookup_delete_ne; [by apply A|].
    intros Heq. apply A in Ht. congruence.
  - intros k' h' Hk'. apply lookup_delete_Some in Hk' as [Hne Hk'].
    destruct (B _ _ Hk') as (t & Ht & Hkt).
    exists t. split; [|done].
    rewrite lookup_delete_ne; [done|]. intros Heq. congruence.
  - intros h' t Ht. apply lookup_delete_Some in Ht as [_ Ht]. eauto.
  - intros h' t Ht. apply lookup_delete_Some in Ht as [_ Ht]. eauto.
Qed.

(** Filing a new timer under a free key. *)
Lemma install_ok (kind : TimerKind) (cb : Callback) (d : Z) (w : World) :
  registry_ok w →
  scheduledDeletions w !! cb_key cb = None →
  well_kinded (mkTimer kind cb d) →
  registry_ok
    (set_scheduledDeletions <[cb_key cb := next_handle w]> (install kind cb d w).2).
Proof.
  intros [A B C D] Hfree Hwk.
  split; simpl.
  - intros h t Ht. apply lookup_insert_Some in Ht as [[<- <-]|[Hne Ht]]; simpl.
    + by rewrite lookup_insert_eq.
    + rewrite lookup_insert_ne; [by apply A|].
      intros Heq. apply A in Ht. congruence.
  - intros k h Hk. apply lookup_insert_Some in Hk as [[<- <-]|[Hne Hk]].
    + eexists. by rewrite lookup_insert_eq.
    + destruct (B _ _ Hk) as (t & Ht & Hkt).
      exists t. split; [|done].
      rewrite lookup_insert_ne; [done|]. apply C in Ht. lia.
  - intros h t Ht. apply lookup_insert_Some in Ht as [[<- <-]|[Hne Ht]].
    + lia.
    + apply C in Ht. lia.
  - intros h t Ht. apply lookup_insert_Some in Ht as [[<- <-]|[Hne Ht]]; eauto.
Qed.

Lemma emit_ok (e : Effect) (w : World) : registry_ok w → registry_ok (emit e w).
Proof. by apply registry_ok_ext. Qed.

Lemma set_userPhones_ok f (w : World) :
  registry_ok w → registry_ok (set_userPhones f w).
Proof. by apply registry_ok_ext. Qed.

Lemma set_submissions_ok f (w : World) :
  registry_ok w → registry_ok (set_submissions f w).
Proof. by apply registry_ok_ext. Qed.

(** On a consistent registry, [scheduleDelete] is: cancel the timer filed
    under the key, if any, then file a fresh one-shot timer there. *)
Lemma scheduleDelete_occupied (c m d : Z) (h : nat) (w : World) :
  registry_ok w →
  scheduledDeletions w !! deletion_key c m = Some h →
  let w0 := set_scheduledDeletions (delete (deletion_key c m))
              (set_timers (delete h) w) in
  scheduleDelete c m d w =
  set_scheduledDeletions <[deletion_key c m := next_handle w0]>
    (install OneShot (DeleteCb c m (deletion_key c m)) d w0).2.
Proof.
  intros Hok Hk. unfold scheduleDelete. rewrite Hk.
  destruct (registered_live _ Hok _ _ Hk) as (t & Ht & Hkt).
  assert (t_kind t = OneShot) as Hkind.
  { pose proof (live_kinded _ Hok _ _ Ht) as Hwk. unfold well_kinded in Hwk.
    destruct (t_cb t) as [c' m' key|u]; [by destruct Hwk|].
    simpl in Hkt. by destruct (deletion_key_not_typing c m u). }
  unfold clearTimeout. rewrite (clear_live _ _ _ _ Ht Hkind).
  unfold setTimeout, install, set_scheduledDeletions, set_timers; simpl.
  f_equal. by rewrite insert_delete_eq.
Qed.

Lemma scheduleDelete_free (c m d : Z) (w : World) :
  scheduledDeletions w !! deletion_key c m = None →
  scheduleDelete c m d w =
  set_scheduledDeletions <[deletion_key c m := next_handle w]>
    (install OneShot (DeleteCb c m (deletion_key c m)) d w).2.
Proof. intros Hk. unfold scheduleDelete. by rewrite Hk. Qed.

Lemma scheduleDelete_ok (c m d : Z) (w : World) :
  registry_ok w → registry_ok (scheduleDelete c m d w).
Proof.
  intros Hok.
  destruct (scheduledDeletions w !! deletion_key c m) as [h|] eqn:Hk.
  - rewrite (scheduleDelete_occupied _ _ _ _ _ Hok Hk).
    apply (install_ok OneShot (DeleteCb c m (deletion_key c m))).
    + by apply cancel_ok.
    + simpl. by rewrite lookup_delete_eq.
    + by split.
  - rewrite (scheduleDelete_free _ _ _ _ Hk).
    by apply (install_ok OneShot (DeleteCb c m (deletion_key c m))).
Qed.

Lemma stopTypingLoop_occupied (u : option string) (h : nat) (w : World) :
  registry_ok w →
  scheduledDeletions w !! typing_key (show_str u) = Some h →
  stopTypingLoop u w =
  set_scheduledDeletions (delete (typing_key (show_str u)))
    (set_timers (delete h) w).
Proof.
  intros Hok Hk. unfold stopTypingLoop. rewrite Hk.
  destruct (registered_live _ Hok _ _ Hk) as (t & Ht & Hkt).
  assert (t_kind t = Repeating) as Hkind.
  { pose proof (live_kinded _ Hok _ _ Ht) as Hwk. unfold well_kinded in Hwk.
    destruct (t_cb t) as [c' m' key|u']; [|done].
    destruct Hwk as [_ ->]. simpl in Hkt.
    by destruct (deletion_key_not_typing c' m' (show_str u)). }
  unfold clearInterval. by rewrite (clear_live _ _ _ _ Ht Hkind).
Qed.

Lemma stopTypingLoop_ok (u : option string) (w : World) :
  registry_ok w → registry_ok (stopTypingLoop u w).
Proof.
  intros Hok.
  destruct (scheduledDeletions w !! typing_key (show_str u)) as [h|] eqn:Hk.
  - rewrite (stopTypingLoop_occupied _ _ _ Hok Hk). by apply cancel_ok.
  - unfold stopTypingLoop. by rewrite Hk.
Qed.

Lemma stopTypingLoop_free (u : option string) (w : World) :
  scheduledDeletions (stopTypingLoop u w) !! typing_key (show_str u) = None.
Proof.
  unfold stopTypingLoop.
  destruct (scheduledDeletions w !! typing_key (show_str u)) eqn:Hk; [|done].
  simpl. unfold clearInterval, clear.
  repeat case_match; simpl; by rewrite lookup_delete_eq.
Qed.

Lemma typing_only_effect_ok (u : option string) (w : World) :
  registry_ok w → registry_ok (typing_only_effect u w).
Proof.
  intros Hok. unfold typing_only_effect.
  destruct (truthy_str u); [|done].
  apply (install_ok Repeating (TypingCb (show_str u))).
  - by apply stopTypingLoop_ok.
  - apply stopTypingLoop_free.
  - done.
Qed.

Lemma fire_ok (h : nat) (w : World) : registry_ok w → registry_ok (fire h w).
Proof.
  intros Hok. unfold fire.
  destruct (timers w !! h) as [t|] eqn:Ht; [|done].
  pose proof (live_kinded _ Hok _ _ Ht) as Hwk. unfold well_kinded in Hwk.
  pose proof (live_registered _ Hok _ _ Ht) as Hreg.
  destruct (t_cb t) as [c m key|u]; simpl in *.
  - destruct Hwk as [-> ->].
    eapply registry_ok_ext; [| | |by apply (cancel_ok _ _ _ Hok Hreg)]; done.
  - rewrite Hwk. by apply emit_ok.
Qed.


(** ** From primitives to the event loop *)

(** Every turn of the event loop is a composition of the primitives below,
    so a property they all keep is kept by every event. *)
Section Preservation.

Variable P : World → Prop.
Hypothesis P_emit : ∀ e w, P w → P (emit e w).
Hypothesis P_userPhones : ∀ f w, P w → P (set_userPhones f w).
Hypothesis P_submissions : ∀ f w, P w → P (set_submissions f w).
Hypothesis P_scheduleDelete : ∀ c m d w, P w → P (scheduleDelete c m d w).
Hypothesis P_stopTypingLoop : ∀ u w, P w → P (stopTypingLoop u w).
Hypothesis P_typing : ∀ u w, P w → P (typing_only_effect u w).
Hypothesis P_fire : ∀ h w, P w → P (fire h w).

Lemma replyAndAutoDelete_preserves ctx text extra r (w : World) :
  P w → P (world_of (replyAndAutoDelete ctx text extra r w)).
Proof.
  intros Hw. unfold replyAndAutoDelete, ctx_reply, mbind, M_bind, world_of.
  destruct r; simpl; auto.
Qed.

Lemma then_unit_world {A} (m : M A) (w : World) :
  world_of ((m ;; mret tt) w) = world_of (m w).
Proof.
  unfold world_of, mbind, M_bind, mret, M_ret. by destruct (m w) as [[?|] ?].
Qed.

Lemma modify_then {A} (f : World → World) (k : M A) (w : World) :
  (modify f;; k) w = k (f w).
Proof. done. Qed.

Lemma decision_preserves (label : string) (text : string) ctx a r u (w : World) :
  P w →
  P (world_of ((modify (stopTypingLoop u);; answerCbQuery label false a;;
                replyAndAutoDelete ctx text "HTML" r;; mret tt) w)).
Proof.
  intros Hw.
  unfold mbind, M_bind, modify, answerCbQuery, world_of; simpl.
  destruct a; simpl; [|auto].
  pose proof (replyAndAutoDelete_preserves ctx text "HTML" r
                (emit (AnswerCbQuery label false true) (stopTypingLoop u w))) as H.
  unfold world_of in H.
  destruct (replyAndAutoDelete _ _ _ _ _) as [[?|] ?]; simpl in *; auto.
Qed.

Lemma not_found_preserves a (w : World) :
  P w → P (world_of (answerCbQuery "Not found or expired" true a w)).
Proof. intros Hw. unfold answerCbQuery, world_of. destruct a; simpl; auto. Qed.

Lemma step_preserves (w : World) (e : Event) : P w → P (step w e).
Proof.
  intros Hw. destruct e as [ctx p r|ctx t r|ctx s a r|ctx s a r|b n a|h|c m d|u|u];
    cbn [step]; auto.
  - unfold on_start. case_match; rewrite then_unit_world;
      by apply replyAndAutoDelete_preserves.
  - unfold on_text. case_match.
    + rewrite modify_then, then_unit_world.
      by apply replyAndAutoDelete_preserves, P_userPhones.
    + rewrite then_unit_world. by apply replyAndAutoDelete_preserves.
  - unfold on_approve, get, mbind at 1, M_bind at 1.
    destruct (submissions w !! s) as [data|].
    + by apply decision_preserves.
    + by apply not_found_preserves.
  - unfold on_reject, get, mbind at 1, M_bind at 1.
    destruct (submissions w !! s) as [data|].
    + by apply decision_preserves.
    + by apply not_found_preserves.
  - unfold api_log_code.
    destruct (negb (truthy (Req.code b))); [done|].
    destruct a; simpl; auto.
Qed.

Lemma run_preserves (es : list Event) (w : World) : P w → P (run es w).
Proof.
  revert w. induction es as [|e es IH]; intros w Hw; simpl; [done|].
  apply IH. by apply step_preserves.
Qed.

End Preservation.

Lemma step_ok (w : World) (e : Event) : registry_ok w → registry_ok (step w e).
Proof.
  apply step_preserves;
    auto using emit_ok, set_userPhones_ok, set_submissions_ok,
      scheduleDelete_ok, stopTypingLoop_ok, typing_only_effect_ok, fire_ok.
Qed.

Lemma run_ok (es : list Event) (w : World) :
  registry_ok w → registry_ok (run es w).
Proof.
  apply run_preserves;
    auto using emit_ok, set_userPhones_ok, set_submissions_ok,
      scheduleDelete_ok, stopTypingLoop_ok, typing_only_effect_ok, fire_ok.
Qed.

Lemma reachable_ok (es : list Event) : registry_ok (run es init).
Proof. apply run_ok, registry_ok_init. Qed.

(** ** Counting the timers filed under a key *)

Lemma elem_of_live_under (k : string) (h : nat) (w : World) :
  h ∈ live_under k w ↔ ∃ t, timers w !! h = Some t ∧ cb_key (t_cb t) = k.
Proof.
  unfold live_under. rewrite list_elem_of_fmap. split.
  - intros ([h' t] & -> & [Ht Hk]%elem_of_map_to_list%map_lookup_filter_Some).
    eauto.
  - intros (t & Ht & Hk). exists (h, t). split; [done|].
    apply elem_of_map_to_list, map_lookup_filter_Some. done.
Qed.

Lemma NoDup_live_under (k : string) (w : World) : NoDup (live_under k w).
Proof. apply NoDup_fst_map_to_list. Qed.

Lemma NoDup_all_equal (l : list nat) (h : nat) :
  NoDup l → (∀ x, x ∈ l → x = h) → (length l ≤ 1)%nat.
Proof.
  intros Hnd Hall. destruct l as [|a [|b l]]; simpl; [lia..|].
  assert (a = h) as -> by (apply Hall; set_solver).
  assert (b = h) as -> by (apply Hall; set_solver).
  apply NoDup_cons in Hnd as [Hnin _]. set_solver.
Qed.

Lemma live_under_le_1 (k : string) (w : World) :
  registry_ok w → (length (live_under k w) ≤ 1)%nat.
Proof.
  intros Hok.
  destruct (scheduledDeletions w !! k) as [h|] eqn:Hk.
  - apply (NoDup_all_equal _ h); [apply NoDup_live_under|].
    intros x (t & Ht & <-)%elem_of_live_under.
    apply (live_registered _ Hok) in Ht. congruence.
  - destruct (live_under k w) as [|x l] eqn:Hl; simpl; [lia|].
    assert (x ∈ live_under k w) as (t & Ht & <-)%elem_of_live_under
      by (rewrite Hl; set_solver).
    apply (live_registered _ Hok) in Ht. congruence.
Qed.

Lemma live_under_occupied (k : string) (h : nat) (w : World) :
  registry_ok w → scheduledDeletions w !! k = Some h → live_under k w = [h].
Proof.
  intros Hok Hk.
  destruct (registered_live _ Hok _ _ Hk) as (t & Ht & Hkt).
  assert (h ∈ live_under k w) as Hin by (apply elem_of_live_under; eauto).
  pose proof (live_under_le_1 k w Hok) as Hlen.
  destruct (live_under k w) as [|x [|y l]]; simpl in *; [|  |lia].
  - by apply elem_of_nil in Hin.
  - by apply list_elem_of_singleton in Hin as ->.
Qed.

Lemma live_under_free (k : string) (w : World) :
  registry_ok w → scheduledDeletions w !! k = None → live_under k w = [].
Proof.
  intros Hok Hk. destruct (live_under k w) as [|x l] eqn:Hl; [done|].
  assert (x ∈ live_under k w) as (t & Ht & <-)%elem_of_live_under
    by (rewrite Hl; set_solver).
  apply (live_registered _ Hok) in Ht. congruence.
Qed.

(** ** A cancelled timer stays cancelled *)

Lemma retired_ext (h : nat) (w w' : World) :
  timers w' = timers w → next_handle w' = next_handle w →
  retired h w → retired h w'.
Proof. unfold retired. by intros -> ->. Qed.

Lemma retired_clear (h : nat) k h' (w : World) :
  retired h w → retired h (clear k h' w).
Proof.
  intros [Hd Hn]. unfold clear. repeat case_match; try done.
  split; simpl; [|done]. by apply lookup_delete_None; right.
Qed.

Lemma retired_install (h : nat) k cb d (w : World) :
  retired h w → retired h (install k cb d w).2.
Proof.
  intros [Hd Hn]. split; simpl; [|lia].
  rewrite lookup_insert_ne; [done|lia].
Qed.

Lemma retired_scheduleDelete (h : nat) c m d (w : World) :
  retired h w → retired h (scheduleDelete c m d w).
Proof.
  intros Hr. unfold scheduleDelete.
  set (w1 := match scheduledDeletions w !! deletion_key c m with
             | Some h0 => clearTimeout h0 w
             | None => w
             end).
  assert (retired h w1) as Hr1.
  { unfold w1. case_match; [by apply retired_clear|done]. }
  eapply retired_ext; [| |by apply (retired_install h OneShot
    (DeleteCb c m (deletion_key c m)) d w1)]; done.
Qed.

Lemma retired_stopTypingLoop (h : nat) u (w : World) :
  retired h w → retired h (stopTypingLoop u w).
Proof.
  intros Hr. unfold stopTypingLoop. case_match; [|done].
  eapply retired_ext; [| |by apply (retired_clear h Repeating)]; done.
Qed.

Lemma retired_typing (h : nat) u (w : World) :
  retired h w → retired h (typing_only_effect u w).
Proof.
  intros Hr. unfold typing_only_effect. case_match; [|done].
  eapply retired_ext; [| |by apply (retired_install h Repeating
    (TypingCb (show_str u)) 4000), retired_stopTypingLoop]; done.
Qed.

Lemma fire_retired (h : nat) (w : World) : retired h w → fire h w = w.
Proof. intros [Hd _]. unfold fire. by rewrite Hd. Qed.

Lemma retired_fire (h h' : nat) (w : World) :
  retired h w → retired h (fire h' w).
Proof.
  intros [Hd Hn]. unfold fire. destruct (timers w !! h') as [t|]; [|done].
  set (w1 := match t_kind t with
             | OneShot => set_timers (delete h') w
             | Repeating => w
             end).
  assert (retired h w1) as Hr.
  { unfold w1. destruct (t_kind t); [|done]. split; simpl; [|done].
    by apply lookup_delete_None; right. }
  clearbody w1. unfold run_callback.
  destruct (t_cb t); exact (retired_ext _ _ _ eq_refl eq_refl Hr).
Qed.

Lemma retired_run (h : nat) (es : list Event) (w : World) :
  retired h w → retired h (run es w).
Proof.
  apply run_preserves;
    eauto using retired_scheduleDelete, retired_stopTypingLoop,
      retired_typing, retired_fire;
    intros; (eapply retired_ext; [| |eassumption]; done).
Qed.


(** ** Replacing the action filed under a key *)

Lemma registered_kind (k : string) (h : nat) (w : World) :
  registry_ok w → scheduledDeletions w !! k = Some h →
  ∃ t, timers w !! h = Some t ∧ cb_key (t_cb t) = k ∧ well_kinded t.
Proof.
  intros Hok Hk. destruct (registered_live _ Hok _ _ Hk) as (t & Ht & Hkt).
  exists t. eauto using live_kinded.
Qed.

Lemma scheduleDelete_replaces (c m d : Z) (h : nat) (w : World) :
  registry_ok w →
  scheduledDeletions w !! deletion_key c m = Some h →
  let w' := scheduleDelete c m d w in
  scheduledDeletions w' !! deletion_key c m = Some (next_handle w)
  ∧ timers w' !! next_handle w
    = Some (mkTimer OneShot (DeleteCb c m (deletion_key c m)) d)
  ∧ retired h w'.
Proof.
  intros Hok Hk w'. unfold w'.
  rewrite (scheduleDelete_occupied _ _ _ _ _ Hok Hk); simpl.
  destruct (registered_live _ Hok _ _ Hk) as (t & Ht & _).
  pose proof (live_below _ Hok _ _ Ht) as Hlt.
  rewrite !lookup_insert_eq. split; [done|]. split; [done|].
  split; simpl; [|lia].
  rewrite lookup_insert_ne by lia. apply lookup_delete_eq.
Qed.

Lemma scheduleDelete_registers (c m d : Z) (w : World) :
  let w' := scheduleDelete c m d w in
  scheduledDeletions w' !! deletion_key c m = Some (next_handle w)
  ∧ timers w' !! next_handle w
    = Some (mkTimer OneShot (DeleteCb c m (deletion_key c m)) d).
Proof.
  unfold scheduleDelete.
  destruct (scheduledDeletions w !! deletion_key c m) as [h|]; simpl.
  - unfold clearTimeout, clear. repeat case_match; simpl;
      by rewrite !lookup_insert_eq.
  - by rewrite !lookup_insert_eq.
Qed.

Lemma typing_installs (u : option string) (w : World) :
  registry_ok w → truthy_str u = true →
  let w' := typing_only_effect u w in
  scheduledDeletions w' !! typing_key (show_str u) = Some (next_handle w)
  ∧ timers w' !! next_handle w
    = Some (mkTimer Repeating (TypingCb (show_str u)) 4000)
  ∧ next_handle w' = S (next_handle w)
  ∧ ∀ h, scheduledDeletions w !! typing_key (show_str u) = Some h →
         retired h w'.
Proof.
  intros Hok Hu w'. unfold w', typing_only_effect. rewrite Hu.
  destruct (scheduledDeletions w !! typing_key (show_str u)) as [h|] eqn:Hk.
  - rewrite (stopTypingLoop_occupied _ _ _ Hok Hk); simpl.
    destruct (registered_live _ Hok _ _ Hk) as (t & Ht & _).
    pose proof (live_below _ Hok _ _ Ht) as Hlt.
    rewrite !lookup_insert_eq. split; [done|]. split; [done|]. split; [done|].
    intros h' [= <-]. split; simpl; [|lia].
    rewrite lookup_insert_ne by lia. apply lookup_delete_eq.
  - unfold stopTypingLoop. rewrite !Hk; simpl.
    rewrite !lookup_insert_eq. by repeat split.
Qed.

(** C2: after any sequence of events (handlers, timers, and the bare
    schedule / start / stop operations) from the empty stores, at most one
    active timer is filed under any registry key; and installing an action
    under an occupied key (scheduleDelete for a [chatId:messageId] key, the
    typing-loop start for a [typing_<userId>] key) leaves the new timer as
    the only one under that key while the replaced timer, one-shot resp.
    repeating, is cancelled at once and for ever: running it later does
    nothing. *)
Theorem C2_one_live_action_per_key (es : list Event) (k : string) :
  let w := run es init in
  (length (live_under k w) ≤ 1)%nat
  ∧ (∀ c m d h,
       scheduledDeletions w !! deletion_key c m = Some h →
       let w' := scheduleDelete c m d w in
       (∃ t, timers w !! h = Some t ∧ t_kind t = OneShot)
       ∧ live_under (deletion_key c m) w = [h]
       ∧ clearTimeout h w = set_timers (delete h) w
       ∧ live_under (deletion_key c m) w' = [next_handle w]
       ∧ h ≠ next_handle w
       ∧ ∀ es', retired h (run es' w') ∧ fire h (run es' w') = run es' w')
  ∧ (∀ u h,
       truthy_str u = true →
       scheduledDeletions w !! typing_key (show_str u) = Some h →
       let w' := typing_only_effect u w in
       (∃ t, timers w !! h = Some t ∧ t_kind t = Repeating)
       ∧ live_under (typing_key (show_str u)) w = [h]
       ∧ clearInterval h w = set_timers (delete h) w
       ∧ live_under (typing_key (show_str u)) w' = [next_handle w]
       ∧ h ≠ next_handle w
       ∧ ∀ es', retired h (run es' w') ∧ fire h (run es' w') = run es' w').
Proof.
  intros w. pose proof (reachable_ok es) as Hok. fold w in Hok.
  split; [by apply live_under_le_1|]. split.
  - intros c m d h Hk w'.
    destruct (registered_kind _ _ _ Hok Hk) as (t & Ht & Hkt & Hwk).
    assert (t_kind t = OneShot) as Hkind.
    { unfold well_kinded in Hwk. destruct (t_cb t) as [? ? ?|u']; [by destruct Hwk|].
      by destruct (deletion_key_not_typing c m u'). }
    destruct (scheduleDelete_replaces c m d h w Hok Hk) as (Hnew & _ & Hret).
    pose proof (live_below _ Hok _ _ Ht) as Hlt.
    repeat split; eauto using live_under_occupied, clear_live.
    + apply live_under_occupied; [by apply scheduleDelete_ok|done].
    + lia.
    + by apply retired_run.
    + by apply retired_run.
    + by apply fire_retired, retired_run.
  - intros u h Hu Hk w'.
    destruct (registered_kind _ _ _ Hok Hk) as (t & Ht & Hkt & Hwk).
    assert (t_kind t = Repeating) as Hkind.
    { unfold well_kinded in Hwk. destruct (t_cb t) as [c' m' ?|u']; [|done].
      destruct Hwk as [_ ->].
      by destruct (deletion_key_not_typing c' m' (show_str u)). }
    destruct (typing_installs u w Hok Hu) as (Hnew & _ & _ & Hret).
    pose proof (live_below _ Hok _ _ Ht) as Hlt.
    repeat split; eauto using live_under_occupied, clear_live.
    + apply live_under_occupied; [by apply typing_only_effect_ok|done].
    + lia.
    + by apply retired_run, Hret.
    + by apply retired_run, Hret.
    + by apply fire_retired, retired_run, Hret.
Qed.


(** ** Submission intake *)

Lemma to_string_truthy (v : JsVal) :
  truthy v = true → truthy_str (Some (to_string v)) = true.
Proof.
  destruct v as [| |[]|z|s]; simpl; try done.
  intros _. destruct (pretty_Z_head z) as (c & Hc & _).
  by destruct (pretty z).
Qed.

Lemma userId_of_truthy (tg : option Req.TgUser) (u : string) :
  userId_of tg = Some u → truthy_str (Some u) = true.
Proof.
  unfold userId_of. destruct (truthy _) eqn:Hid; [|done].
  intros [= <-]. by apply to_string_truthy.
Qed.

Lemma api_log_code_accepted (b : Req.Body) (n : Z) (a : bool) (w : World) :
  truthy (Req.code b) = true →
  let tg := Req.tgUser b in
  let uid := userId_of tg in
  let sid := submissionId_of uid n in
  let first := or_else (opt_chain Req.first_name tg) (JStr "") in
  let user := or_else (opt_chain Req.username tg) (JStr "") in
  let phone := telegramPhone_of uid w in
  api_log_code b n a w =
  (if a then mkResponse 200 true None
   else mkResponse 500 false (Some "Internal server error"),
   emit (SendMessage ADMIN_CHAT_ID
           (logText uid first user phone (Req.code b))
           (decision_keyboard sid) a)
     (typing_only_effect uid
        (set_submissions
           <[sid := mkSubmission uid (Req.code b) phone user first]> w))).
Proof. intros Hc. unfold api_log_code. rewrite Hc; simpl. by destruct a. Qed.

Lemma api_log_code_typing (b : Req.Body) (n : Z) (a : bool) (u : string)
    (w : World) :
  registry_ok w →
  truthy (Req.code b) = true →
  userId_of (Req.tgUser b) = Some u →
  let w1 := (api_log_code b n a w).2 in
  registry_ok w1
  ∧ scheduledDeletions w1 !! typing_key u = Some (next_handle w)
  ∧ timers w1 !! next_handle w = Some (mkTimer Repeating (TypingCb u) 4000)
  ∧ next_handle w1 = S (next_handle w)
  ∧ ∀ h, scheduledDeletions w !! typing_key u = Some h → retired h w1.
Proof.
  intros Hok Hc Hu w1. unfold w1.
  rewrite (api_log_code_accepted _ _ _ _ Hc); simpl. rewrite Hu.
  set (w0 := set_submissions _ w).
  assert (registry_ok w0) as Hok0 by by apply set_submissions_ok.
  destruct (typing_installs (Some u) w0 Hok0 (userId_of_truthy _ _ Hu))
    as (Hreg & Ht & Hn & Hret).
  split; [by apply emit_ok, typing_only_effect_ok|].
  repeat split; try done.
  - by apply Hret.
  - by apply Hret.
Qed.

(** C5: two submissions in a row for the same user, with no decision in
    between, leave exactly one typing interval filed under
    [typing_<userId>]: the one the second submission installed.  The
    interval of the first submission was cancelled before the second was
    installed, stays cancelled whatever happens next, and running it does
    nothing (no duplicate tick).  The same holds for the bare start block
    run twice. *)
Theorem C5_start_twice_single_loop (es : list Event) (b1 b2 : Req.Body)
    (n1 n2 : Z) (a1 a2 : bool) (u : string) :
  truthy (Req.code b1) = true →
  truthy (Req.code b2) = true →
  userId_of (Req.tgUser b1) = Some u →
  userId_of (Req.tgUser b2) = Some u →
  let w := run es init in
  let w1 := (api_log_code b1 n1 a1 w).2 in
  let w2 := (api_log_code b2 n2 a2 w1).2 in
  let v1 := typing_only_effect (Some u) w in
  let v2 := typing_only_effect (Some u) v1 in
  live_under (typing_key u) w1 = [next_handle w]
  ∧ live_under (typing_key u) w2 = [next_handle w1]
  ∧ timers w2 !! next_handle w1 = Some (mkTimer Repeating (TypingCb u) 4000)
  ∧ next_handle w1 ≠ next_handle w
  ∧ (∀ es', retired (next_handle w) (run es' w2)
            ∧ fire (next_handle w) (run es' w2) = run es' w2)
  ∧ live_under (typing_key u) v2 = [next_handle v1]
  ∧ retired (next_handle w) v2.
Proof.
  intros Hc1 Hc2 Hu1 Hu2 w w1 w2 v1 v2.
  pose proof (reachable_ok es) as Hok. fold w in Hok.
  destruct (api_log_code_typing b1 n1 a1 u w Hok Hc1 Hu1)
    as (Hok1 & Hreg1 & Ht1 & Hn1 & _). fold w1 in Hok1, Hreg1, Ht1, Hn1.
  destruct (api_log_code_typing b2 n2 a2 u w1 Hok1 Hc2 Hu2)
    as (Hok2 & Hreg2 & Ht2 & Hn2 & Hret2). fold w2 in Hok2, Hreg2, Ht2, Hn2, Hret2.
  pose proof (userId_of_truthy _ _ Hu1) as Htr.
  destruct (typing_installs (Some u) w Hok Htr) as (Hv1 & _ & Hnv1 & _).
  fold v1 in Hv1, Hnv1.
  assert (registry_ok v1) as Hokv1 by by apply typing_only_effect_ok.
  destruct (typing_installs (Some u) v1 Hokv1 Htr) as (Hv2 & _ & _ & Hretv).
  fold v2 in Hv2, Hretv.
  split; [by apply live_under_occupied|].
  split; [by apply live_under_occupied|].
  split; [done|]. split; [lia|]. split.
  - intros es'. split.
    + by apply retired_run, Hret2.
    + by apply fire_retired, retired_run, Hret2.
  - split; [|by apply Hretv].
    apply live_under_occupied; [by apply typing_only_effect_ok|done].
Qed.


(** ** What the registry operations leave alone *)

Lemma clear_frame (k : TimerKind) (h : nat) (w : World) :
  outbox (clear k h w) = outbox w
  ∧ submissions (clear k h w) = submissions w
  ∧ userPhones (clear k h w) = userPhones w
  ∧ scheduledDeletions (clear k h w) = scheduledDeletions w
  ∧ next_handle (clear k h w) = next_handle w.
Proof. unfold clear. by repeat case_match. Qed.

Lemma scheduleDelete_frame (c m d : Z) (w : World) :
  let w' := scheduleDelete c m d w in
  outbox w' = outbox w
  ∧ submissions w' = submissions w
  ∧ userPhones w' = userPhones w
  ∧ next_handle w' = S (next_handle w)
  ∧ ∀ k, k ≠ deletion_key c m →
         scheduledDeletions w' !! k = scheduledDeletions w !! k.
Proof.
  unfold scheduleDelete, clearTimeout.
  destruct (scheduledDeletions w !! deletion_key c m) as [h|]; simpl.
  - destruct (clear_frame OneShot h w) as (-> & -> & -> & -> & ->).
    repeat split; try done. intros k Hk. by rewrite lookup_insert_ne.
  - repeat split; try done. intros k Hk. by rewrite lookup_insert_ne.
Qed.

Lemma stopTypingLoop_frame (u : option string) (w : World) :
  let w' := stopTypingLoop u w in
  outbox w' = outbox w
  ∧ submissions w' = submissions w
  ∧ userPhones w' = userPhones w
  ∧ next_handle w' = next_handle w.
Proof.
  unfold stopTypingLoop, clearInterval.
  destruct (scheduledDeletions w !! typing_key (show_str u)) as [h|]; simpl;
    [|done].
  by destruct (clear_frame Repeating h w) as (-> & -> & -> & _ & ->).
Qed.

Lemma new_effects_app (w w' : World) (es : list Effect) :
  outbox w' = (outbox w ++ es)%list → new_effects w w' = es.
Proof. intros Ho. unfold new_effects. rewrite Ho. apply drop_app_length. Qed.

(** ** Decisions *)

Lemma replyAndAutoDelete_run (ctx : Ctx) (text extra : string)
    (r : option Z) (w : World) :
  replyAndAutoDelete ctx text extra r w =
  match r with
  | Some mid =>
      (Ok mid, scheduleDelete (chat_id ctx) mid DEFAULT_DELAY
                 (emit (Reply (chat_id ctx) text extra (Some mid)) w))
  | None => (Rejected, emit (Reply (chat_id ctx) text extra None) w)
  end.
Proof. by destruct r. Qed.

Lemma on_approve_found (ctx : Ctx) (sid : string) (data : Submission)
    (a : bool) (r : option Z) (w : World) :
  submissions w !! sid = Some data →
  on_approve ctx sid a r w
  = decide_found "Approved" (approved_text data) ctx (userId data) a r w.
Proof.
  intros Hs. unfold on_approve, get, mbind at 1, M_bind at 1. by rewrite Hs.
Qed.

Lemma on_reject_found (ctx : Ctx) (sid : string) (data : Submission)
    (a : bool) (r : option Z) (w : World) :
  submissions w !! sid = Some data →
  on_reject ctx sid a r w
  = decide_found "Rejected" (rejected_text (userId data)) ctx (userId data) a r w.
Proof.
  intros Hs. unfold on_reject, get, mbind at 1, M_bind at 1. by rewrite Hs.
Qed.

Lemma decide_found_world (label text : string) (ctx : Ctx)
    (u : option string) (a : bool) (r : option Z) (w : World) :
  world_of (decide_found label text ctx u a r w) =
  let w1 := emit (AnswerCbQuery label false a) (stopTypingLoop u w) in
  if a then
    match r with
    | Some mid =>
        scheduleDelete (chat_id ctx) mid DEFAULT_DELAY
          (emit (Reply (chat_id ctx) text "HTML" (Some mid)) w1)
    | None => emit (Reply (chat_id ctx) text "HTML" None) w1
    end
  else w1.
Proof. by destruct a, r. Qed.

Lemma decide_found_submissions (label text : string) (ctx : Ctx)
    (u : option string) (a : bool) (r : option Z) (w : World) :
  submissions (world_of (decide_found label text ctx u a r w)) = submissions w.
Proof.
  rewrite decide_found_world; cbv zeta.
  destruct (stopTypingLoop_frame u w) as (_ & Hs & _).
  destruct a; [|done]. destruct r as [mid|]; [|done].
  match goal with |- context [scheduleDelete ?c ?m ?d ?w0] =>
    destruct (scheduleDelete_frame c m d w0) as (_ & -> & _) end.
  done.
Qed.

Lemma decide_found_stops (label text : string) (ctx : Ctx)
    (u : option string) (a : bool) (r : option Z) (w : World) :
  registry_ok w →
  let w' := world_of (decide_found label text ctx u a r w) in
  registry_ok w'
  ∧ scheduledDeletions w' !! typing_key (show_str u) = None
  ∧ live_under (typing_key (show_str u)) w' = []
  ∧ ∀ h, scheduledDeletions w !! typing_key (show_str u) = Some h →
         retired h w'.
Proof.
  intros Hok w'.
  assert (registry_ok w') as Hok'.
  { unfold w'. rewrite decide_found_world; cbv zeta.
    destruct a; [destruct r|];
      auto using emit_ok, scheduleDelete_ok, stopTypingLoop_ok. }
  assert (scheduledDeletions w' !! typing_key (show_str u) = None) as Hfree.
  { unfold w'. rewrite decide_found_world; cbv zeta.
    pose proof (stopTypingLoop_free u w) as Hf.
    destruct a; [destruct r as [mid|]|]; try done.
    match goal with |- context [scheduleDelete ?c ?m ?d ?w0] =>
      destruct (scheduleDelete_frame c m d w0) as (_ & _ & _ & _ & ->) end;
      [done|].
    intros Heq. by destruct (deletion_key_not_typing (chat_id ctx) mid (show_str u)). }
  split; [done|]. split; [done|]. split; [by apply live_under_free|].
  intros h Hk.
  assert (retired h (stopTypingLoop u w)) as Hr.
  { rewrite (stopTypingLoop_occupied _ _ _ Hok Hk).
    destruct (registered_live _ Hok _ _ Hk) as (t & Ht & _).
    split; simpl; [apply lookup_delete_eq|by eapply live_below]. }
  unfold w'. rewrite decide_found_world; cbv zeta.
  destruct a; [destruct r as [mid|]|]; try done.
  by apply retired_scheduleDelete.
Qed.

Lemma decide_found_effects (label text : string) (ctx : Ctx)
    (u : option string) (a : bool) (r : option Z) (w : World) :
  new_effects w (world_of (decide_found label text ctx u a r w))
  = AnswerCbQuery label false a
      :: (if a then [Reply (chat_id ctx) text "HTML" r] else []).
Proof.
  rewrite decide_found_world; cbv zeta.
  destruct (stopTypingLoop_frame u w) as (Ho & _).
  apply new_effects_app.
  destruct a; [destruct r as [mid|]|]; cbn [outbox emit]; rewrite ?Ho.
  - match goal with |- context [scheduleDelete ?c ?m ?d ?w0] =>
      destruct (scheduleDelete_frame c m d w0) as (-> & _) end.
    cbn [outbox emit]. by rewrite Ho, <- app_assoc.
  - by rewrite <- app_assoc.
  - done.
Qed.

Lemma on_approve_absent (ctx : Ctx) (sid : string) (a : bool) (r : option Z)
    (w : World) :
  submissions w !! sid = None →
  world_of (on_approve ctx sid a r w)
  = emit (AnswerCbQuery "Not found or expired" true a) w.
Proof.
  intros Hs. unfold on_approve, get, mbind at 1, M_bind at 1. rewrite Hs.
  by destruct a.
Qed.

Lemma on_reject_absent (ctx : Ctx) (sid : string) (a : bool) (r : option Z)
    (w : World) :
  submissions w !! sid = None →
  world_of (on_reject ctx sid a r w)
  = emit (AnswerCbQuery "Not found or expired" true a) w.
Proof.
  intros Hs. unfold on_reject, get, mbind at 1, M_bind at 1. rewrite Hs.
  by destruct a.
Qed.

(** C1, in the form that holds on the code: a decision does not retire the
    record.  After an approve or a reject on a stored id, whatever the
    transport answered, the Submission Store is unchanged, so a second
    approve or reject on the same id finds the record again and opens with
    the acknowledgement "Approved" resp. "Rejected"; "Not found or
    expired" is what the handlers answer, with nothing else done, for an
    id that has no record in the store. *)
Theorem C1_decided_submission_stays_retrievable (w : World) (ctx ctx' : Ctx)
    (sid : string) (data : Submission) (a a' : bool) (r r' : option Z) :
  submissions w !! sid = Some data →
  let wa := world_of (on_approve ctx sid a r w) in
  let wr := world_of (on_reject ctx sid a r w) in
  submissions wa = submissions w
  ∧ submissions wr = submissions w
  ∧ (∀ w1, w1 = wa ∨ w1 = wr →
       submissions w1 !! sid = Some data
       ∧ new_effects w1 (world_of (on_approve ctx' sid a' r' w1))
         = AnswerCbQuery "Approved" false a'
             :: (if a' then [Reply (chat_id ctx') (approved_text data) "HTML" r']
                 else [])
       ∧ new_effects w1 (world_of (on_reject ctx' sid a' r' w1))
         = AnswerCbQuery "Rejected" false a'
             :: (if a' then [Reply (chat_id ctx')
                               (rejected_text (userId data)) "HTML" r']
                 else []))
  ∧ (∀ w0 sid0, submissions w0 !! sid0 = None →
       world_of (on_approve ctx sid0 a r w0)
       = emit (AnswerCbQuery "Not found or expired" true a) w0
       ∧ world_of (on_reject ctx sid0 a r w0)
         = emit (AnswerCbQuery "Not found or expired" true a) w0).
Proof.
  intros Hs wa wr.
  assert (submissions wa = submissions w) as Ha.
  { unfold wa. rewrite (on_approve_found _ _ _ _ _ _ Hs).
    apply decide_found_submissions. }
  assert (submissions wr = submissions w) as Hr.
  { unfold wr. rewrite (on_reject_found _ _ _ _ _ _ Hs).
    apply decide_found_submissions. }
  split; [done|]. split; [done|]. split.
  - intros w1 Hw1.
    assert (submissions w1 !! sid = Some data) as Hs1
      by (destruct Hw1 as [-> | ->]; congruence).
    split; [done|].
    rewrite (on_approve_found _ _ _ _ _ _ Hs1), (on_reject_found _ _ _ _ _ _ Hs1).
    split; apply decide_found_effects.
  - intros w0 sid0 Hs0. split.
    + by apply on_approve_absent.
    + by apply on_reject_absent.
Qed.




(** ** Trimming *)

Lemma append_assoc (p q r : string) : (p +:+ q) +:+ r = p +:+ (q +:+ r).
Proof.
  induction p as [|a p IH]; [done|].
  change (String a ((p +:+ q) +:+ r) = String a (p +:+ (q +:+ r))).
  by rewrite IH.
Qed.

Lemma append_nil_r (p : string) : p +:+ "" = p.
Proof.
  induction p as [|a p IH]; [done|].
  change (String a (p +:+ "") = String a p). by rewrite IH.
Qed.

Lemma length_append (p q : string) :
  String.length (p +:+ q) = (String.length p + String.length q)%nat.
Proof.
  induction p as [|a p IH]; [done|].
  change (S (String.length (p +:+ q)) = S (String.length p + String.length q)).
  by rewrite IH.
Qed.

Lemma startsWith_nil (s : string) : startsWith s "" = true.
Proof. by destruct s. Qed.

Lemma slice_app (p q : string) : slice (String.length p) (p +:+ q) = q.
Proof. induction p as [|a p IH]; [done|]. exact IH. Qed.

Lemma startsWith_split (s p : string) :
  startsWith s p = true → s = p +:+ slice (String.length p) s.
Proof.
  revert s. induction p as [|a p IH]; intros [|b s] Hp; try done.
  cbn [startsWith] in Hp. apply andb_true_iff in Hp as [Hab Hs].
  apply Ascii.eqb_eq in Hab as ->.
  change (String b s = String b (p +:+ slice (String.length p) s)).
  f_equal. by apply IH.
Qed.

Lemma white_space_cases (w : string) :
  In w white_space →
  ∀ q, space_len (w +:+ q) = String.length w ∧ (0 < String.length w)%nat.
Proof.
  intros Hin q. unfold white_space in Hin. cbn [map] in Hin.
  repeat (destruct Hin as [<-|Hin]); try done;
    (split; [by destruct q|cbn; lia]).
Qed.

Lemma space_len_append (w q : string) :
  In w white_space → space_len (w +:+ q) = String.length w.
Proof. intros Hin. by destruct (white_space_cases w Hin q). Qed.

Lemma space_len_spec (s : string) (k : nat) :
  space_len s = S k →
  ∃ w, In w white_space ∧ String.length w = S k ∧ s = w +:+ slice (S k) s.
Proof.
  unfold space_len. destruct (List.find (startsWith s) white_space) as [w|] eqn:Hf;
    [|done].
  apply find_some in Hf as [Hin Hp]. intros Hlen. exists w.
  split; [done|]. split; [done|]. rewrite <- Hlen. by apply startsWith_split.
Qed.

Lemma slice_shorter (s : string) (k : nat) :
  space_len s = S k →
  (String.length (slice (S k) s) < String.length s)%nat.
Proof.
  intros (w & _ & Hlen & Hs)%space_len_spec.
  rewrite Hs at 2. rewrite length_append. lia.
Qed.

Lemma trimStart_go_slice (k : nat) (s : string) :
  trimStart_go k s = trimStart (slice k s).
Proof.
  revert s. induction k as [|k IH]; intros [|a r]; try done.
  cbn [trimStart_go slice]. apply IH.
Qed.

Lemma trimStart_eq (s : string) :
  trimStart s = match space_len s with
                | S k => trimStart (slice (S k) s)
                | O => s
                end.
Proof.
  destruct s as [|a r]; [done|]. unfold trimStart at 1. cbn [trimStart_go].
  destruct (space_len (String a r)); [done|]. cbn [slice].
  apply trimStart_go_slice.
Qed.

Lemma all_space_go_slice (k : nat) (s : string) :
  all_space_go k s = all_space (slice k s).
Proof.
  revert s. induction k as [|k IH]; intros [|a r]; try done.
  cbn [all_space_go slice]. apply IH.
Qed.

Lemma all_space_eq (a : ascii) (r : string) :
  all_space (String a r)
  = match space_len (String a r) with
    | S k => all_space (slice k r)
    | O => false
    end.
Proof.
  unfold all_space at 1. cbn [all_space_go].
  destruct (space_len (String a r)); [done|]. apply all_space_go_slice.
Qed.

Lemma all_space_white (w q : string) :
  In w white_space → all_space (w +:+ q) = all_space q.
Proof.
  intros Hin. destruct (white_space_cases w Hin q) as [Hlen Hpos].
  destruct w as [|a w']; [cbn in Hpos; lia|].
  change (String a w' +:+ q) with (String a (w' +:+ q)) in *.
  rewrite all_space_eq, Hlen. cbn [String.length]. by rewrite slice_app.
Qed.

Lemma all_space_append (p q : string) :
  all_space p = true → all_space (p +:+ q) = all_space q.
Proof.
  remember (String.length p) as n eqn:Hn. revert p Hn.
  induction n as [n IH] using lt_wf_ind. intros [|a r] Hn Hp; [done|].
  rewrite all_space_eq in Hp.
  destruct (space_len (String a r)) as [|k] eqn:Hk; [done|].
  destruct (space_len_spec _ _ Hk) as (w & Hin & Hlen & Hs).
  cbn [slice] in Hs. rewrite Hs, append_assoc, all_space_white by done.
  apply (IH (String.length (slice k r))); [|done|done].
  subst n. pose proof (slice_shorter _ _ Hk) as Hlt. by cbn [slice] in Hlt.
Qed.

Lemma trimStart_spec (s : string) :
  ∃ pre, s = pre +:+ trimStart s
         ∧ all_space pre = true ∧ space_len (trimStart s) = 0%nat.
Proof.
  remember (String.length s) as n eqn:Hn. revert s Hn.
  induction n as [n IH] using lt_wf_ind. intros s Hn.
  rewrite trimStart_eq. destruct (space_len s) as [|k] eqn:Hk.
  - by exists "".
  - destruct (space_len_spec _ _ Hk) as (w & Hin & Hlen & Hs).
    destruct (IH (String.length (slice (S k) s))
                (eq_ind_r (λ m, (_ < m)%nat) (slice_shorter _ _ Hk) Hn)
                (slice (S k) s) eq_refl) as (pre & Hpre & Hsp & Hlead).
    exists (w +:+ pre). split; [|split; [|done]].
    + rewrite append_assoc, <- Hpre. exact Hs.
    + by rewrite all_space_white.
Qed.

Lemma trimEnd_spec (s : string) :
  ∃ post, s = trimEnd s +:+ post
          ∧ all_space post = true
          ∧ ∀ p q, trimEnd s = p +:+ q → q ≠ "" → all_space (q +:+ post) = false.
Proof.
  induction s as [|a r IH].
  - exists "". split; [done|]. split; [done|]. by intros [|??] [|??].
  - cbn [trimEnd]. destruct (all_space (String a r)) eqn:Hall.
    + exists (String a r). split; [done|]. split; [done|]. by intros [|??] [|??].
    + destruct IH as (post & Hr & Hpost & Hmin). exists post.
      split; [|split; [done|]].
      * change (String a r = String a (trimEnd r +:+ post)). by rewrite <- Hr.
      * intros [|b p] q Heq Hq.
        -- change (String a (trimEnd r) = q) in Heq. subst q.
           change (all_space (String a (trimEnd r +:+ post)) = false).
           by rewrite <- Hr.
        -- injection Heq as _ Heq. by apply (Hmin p q).
Qed.

Lemma space_len_prefix (p q : string) :
  space_len (p +:+ q) = 0%nat → space_len p = 0%nat.
Proof.
  intros Hpq. destruct (space_len p) as [|k] eqn:Hk; [done|].
  destruct (space_len_spec _ _ Hk) as (w & Hin & Hlen & Hs).
  rewrite Hs, append_assoc, space_len_append in Hpq by done. lia.
Qed.

(** [trim] removes white space at both ends, all of it, and nothing else. *)
Lemma trim_spec (s : string) :
  (∃ pre post, s = pre +:+ trim s +:+ post
               ∧ all_space pre = true ∧ all_space post = true)
  ∧ space_len (trim s) = 0%nat
  ∧ ∀ p q, trim s = p +:+ q → q ≠ "" → all_space q = false.
Proof.
  destruct (trimStart_spec s) as (pre & Hs & Hpre & Hlead).
  destruct (trimEnd_spec (trimStart s)) as (post & Ht & Hpost & Hmin).
  fold (trim s) in Ht, Hmin. split; [|split].
  - exists pre, post. by rewrite <- Ht.
  - rewrite Ht in Hlead. by apply space_len_prefix in Hlead.
  - intros p q Heq Hq. specialize (Hmin p q Heq Hq).
    destruct (all_space q) eqn:Hall; [|done].
    by rewrite (all_space_append q post Hall), Hpost in Hmin.
Qed.

(** ** Inbound text *)

Lemma strip_non_digits_length (s : string) :
  String.length (strip_non_digits s) = count_digits s.
Proof.
  induction s as [|c r IH]; simpl; [done|].
  destruct (is_digit c); simpl; by rewrite IH.
Qed.

Lemma startsWith_plus (s : string) :
  startsWith s "+" = true ↔ head_char s = Some "+"%char.
Proof.
  destruct s as [|c r]; [done|].
  cbn [startsWith head_char].
  assert (startsWith r "" = true) as -> by by destruct r.
  rewrite andb_true_r. destruct (Ascii.eqb_spec "+" c) as [<-|Hne]; [done|].
  split; [done|]. by intros [= ->].
Qed.

Lemma classify_spec (message_text : string) :
  classify message_text = spec_classify message_text.
Proof.
  unfold classify, spec_classify, isPhone.
  rewrite strip_non_digits_length.
  set (t := trim message_text).
  destruct (startsWith t "+") eqn:Hp; cbn [orb].
  - rewrite bool_decide_eq_true_2; [done|]. left. by apply startsWith_plus.
  - destruct (10 <=? count_digits t)%nat eqn:Hd.
    + rewrite bool_decide_eq_true_2; [done|]. right. by apply Nat.leb_le.
    + rewrite bool_decide_eq_false_2; [done|]. intros [Hh|Hc].
      * apply startsWith_plus in Hh. congruence.
      * apply Nat.leb_le in Hc. congruence.
Qed.

Lemma on_text_world (ctx : Ctx) (text : string) (r : option Z) (w : World) :
  world_of (on_text ctx text r w) =
  let w1 := if isPhone (trim text)
            then set_userPhones <[pretty (from_id ctx) := trim text]> w
            else w in
  let reply := if isPhone (trim text)
               then "Phone saved! Kung may code ka mula sa website, i-send lang dito."
               else "Code received." in
  world_of (replyAndAutoDelete ctx reply "HTML" r w1).
Proof.
  unfold on_text. destruct (isPhone (trim text)); cbv zeta.
  - by rewrite modify_then, then_unit_world.
  - by rewrite then_unit_world.
Qed.

Lemma replyAndAutoDelete_frame (ctx : Ctx) (text extra : string)
    (r : option Z) (w : World) :
  let w' := world_of (replyAndAutoDelete ctx text extra r w) in
  outbox w' = (outbox w ++ [Reply (chat_id ctx) text extra r])%list
  ∧ userPhones w' = userPhones w
  ∧ submissions w' = submissions w.
Proof.
  rewrite replyAndAutoDelete_run. destruct r as [mid|]; [|done].
  unfold world_of; cbn [snd].
  match goal with |- context [scheduleDelete ?c ?m ?d ?w0] =>
    destruct (scheduleDelete_frame c m d w0) as (-> & -> & -> & _) end.
  done.
Qed.

(** C3: the branch the text handler takes is the heuristic of the
    specification: phone iff the trimmed text starts with '+' or holds at
    least ten digit characters.  "+639171234567" and "09171234567" are
    phones, "123456" and the empty text are not.  A text classified as
    phone is stored, trimmed, in the Phone Directory under the sender's
    id, replacing whatever was there; any other text leaves the directory
    as it was.  Trimming is JavaScript's: the text is cut into white
    space, the trimmed text, and white space, where the trimmed text
    neither starts nor ends with a white-space code point, be it ASCII,
    a no-break space, an ideographic space or a byte-order mark. *)
Theorem C3_phone_classification :
  (∀ text, classify text = spec_classify text)
  ∧ classify "+639171234567" = Phone
  ∧ classify "09171234567" = Phone
  ∧ classify "123456" = CodeOrOther
  ∧ classify "" = CodeOrOther
  ∧ (∀ (w : World) (ctx : Ctx) (text : string) (r : option Z),
       let w' := world_of (on_text ctx text r w) in
       match spec_classify text with
       | Phone =>
           userPhones w' = <[pretty (from_id ctx) := trim text]> (userPhones w)
           ∧ userPhones w' !! pretty (from_id ctx) = Some (trim text)
           ∧ new_effects w w'
             = [Reply (chat_id ctx)
                  "Phone saved! Kung may code ka mula sa website, i-send lang dito."
                  "HTML" r]
       | CodeOrOther =>
           userPhones w' = userPhones w
           ∧ new_effects w w' = [Reply (chat_id ctx) "Code received." "HTML" r]
       end)
  ∧ (∀ text,
       (∃ pre post, text = pre +:+ trim text +:+ post
                    ∧ all_space pre = true ∧ all_space post = true)
       ∧ space_len (trim text) = 0%nat
       ∧ ∀ p q, trim text = p +:+ q → q ≠ "" → all_space q = false)
  ∧ trim ("  " +:+ bytes [9] +:+ "+63 917" +:+ bytes [10; 13]) = "+63 917"
  ∧ trim (bytes [194; 160] +:+ "+123" +:+ bytes [227; 128; 128; 239; 187; 191])
    = "+123"
  ∧ trim (bytes [194; 160] +:+ "0917 123 4567") = "0917 123 4567"
  ∧ trim (bytes [226; 128; 168] +:+ "x y" +:+ bytes [226; 128; 137]) = "x y"
  ∧ classify (bytes [194; 160] +:+ "+123") = Phone
  ∧ classify (bytes [194; 160] +:+ "0917 123 4567") = Phone
  ∧ classify ("  123456" +:+ bytes [227; 128; 128]) = CodeOrOther
  ∧ (∀ (w : World) (ctx : Ctx) (r : option Z),
       userPhones (world_of (on_text ctx (bytes [194; 160] +:+ "+123") r w))
         !! pretty (from_id ctx) = Some "+123").
Proof.
  assert (∀ (w : World) (ctx : Ctx) (text : string) (r : option Z),
    let w' := world_of (on_text ctx text r w) in
    match spec_classify text with
    | Phone =>
        userPhones w' = <[pretty (from_id ctx) := trim text]> (userPhones w)
        ∧ userPhones w' !! pretty (from_id ctx) = Some (trim text)
        ∧ new_effects w w'
          = [Reply (chat_id ctx)
               "Phone saved! Kung may code ka mula sa website, i-send lang dito."
               "HTML" r]
    | CodeOrOther =>
        userPhones w' = userPhones w
        ∧ new_effects w w' = [Reply (chat_id ctx) "Code received." "HTML" r]
    end) as Hhandler.
  { intros w ctx text r w'. rewrite <- classify_spec.
    unfold w'. rewrite on_text_world. unfold classify.
    destruct (isPhone (trim text)); cbv zeta;
      match goal with |- context [replyAndAutoDelete ?c ?t ?e ?r ?w0] =>
        destruct (replyAndAutoDelete_frame c t e r w0) as (Ho & Hp & _) end.
    - rewrite Hp. cbn [userPhones set_userPhones].
      split; [done|]. split; [apply lookup_insert_eq|].
      by apply new_effects_app.
    - split; [done|]. by apply new_effects_app. }
  split; [apply classify_spec|].
  repeat (split; [reflexivity|]).
  split; [exact Hhandler|].
  split; [apply trim_spec|].
  repeat (split; [reflexivity|]).
  intros w ctx r.
  pose proof (Hhandler w ctx (bytes [194; 160] +:+ "+123") r) as Hnbsp.
  change (spec_classify (bytes [194; 160] +:+ "+123")) with Phone in Hnbsp.
  cbv zeta iota in Hnbsp. destruct Hnbsp as (_ & Hentry & _).
  exact Hentry.
Qed.

(** C4: a body without [code] is answered 400 with [ok:false] and an
    error text, and the handler returns the world it was given: no
    record, no timer, no registry entry, no call on the transport. *)
Theorem C4_missing_code_rejected (w : World) (tg : option Req.TgUser)
    (now : Z) (accepted : bool) :
  let res := api_log_code (Req.mkBody JUndefined tg) now accepted w in
  res = (mkResponse 400 false (Some "Code required"), w)
  ∧ submissions res.2 = submissions w
  ∧ timers res.2 = timers w
  ∧ scheduledDeletions res.2 = scheduledDeletions w
  ∧ new_effects w res.2 = [].
Proof.
  intros res. unfold res, api_log_code; cbn.
  repeat split. unfold new_effects. apply drop_all.
Qed.

(** C10: the guard is [!code], so the empty string, like any falsy value
    ([null], [false], [0]), is answered exactly as a missing [code]: 400
    and the world untouched. *)
Theorem C10_empty_code_rejected (w : World) (tg : option Req.TgUser)
    (now : Z) (accepted : bool) :
  api_log_code (Req.mkBody (JStr "") tg) now accepted w
  = (mkResponse 400 false (Some "Code required"), w)
  ∧ api_log_code (Req.mkBody (JStr "") tg) now accepted w
    = api_log_code (Req.mkBody JUndefined tg) now accepted w
  ∧ (∀ c, truthy c = false →
          api_log_code (Req.mkBody c tg) now accepted w
          = (mkResponse 400 false (Some "Code required"), w))
  ∧ (∀ c, truthy c = true →
          (api_log_code (Req.mkBody c tg) now accepted w).1
          ≠ mkResponse 400 false (Some "Code required")).
Proof.
  split; [done|]. split; [done|]. split.
  - intros c Hc. unfold api_log_code; cbn [Req.code]. by rewrite Hc.
  - intros c Hc. rewrite api_log_code_accepted by done. by destruct accepted.
Qed.


Lemma typing_registers (u : string) (w : World) :
  truthy_str (Some u) = true →
  let w' := typing_only_effect (Some u) w in
  scheduledDeletions w' !! typing_key u = Some (next_handle w)
  ∧ timers w' !! next_handle w = Some (mkTimer Repeating (TypingCb u) 4000)
  ∧ outbox w' = outbox w
  ∧ submissions w' = submissions w.
Proof.
  intros Hu. unfold typing_only_effect. rewrite Hu.
  destruct (stopTypingLoop_frame (Some u) w) as (Ho & Hs & _ & Hn).
  cbn. rewrite Hn, !lookup_insert_eq. by rewrite Ho, Hs.
Qed.

Lemma typing_skipped (u : option string) (w : World) :
  truthy_str u = false → typing_only_effect u w = w.
Proof. intros Hu. unfold typing_only_effect. by rewrite Hu. Qed.

(** C6: after user 42 sent "+639171234567" to the bot, the submission
    {code "445566", tgUser {id 42, username "ana", first_name "Ana"}},
    with the reviewer notification taken by the transport, is answered
    200 {ok:true}; the record stored under "42_<Date.now()>" carries the
    contact "+639171234567"; the only transport call is the notification
    to ADMIN_CHAT_ID, whose text contains "445566" and whose two buttons
    carry approve:<id> and reject:<id>; and a 4000 ms typing interval for
    user "42" is filed under "typing_42".  The contact comes from the
    Phone Directory as it is when the submission arrives, and is "Unknown
    phone" when the directory has no entry for "42". *)
Theorem C6_intake_scenario (w0 : World) (chat : Z) (r : option Z) (now : Z) :
  let w1 := world_of (on_text (mkCtx chat 42) "+639171234567" r w0) in
  let res := api_log_code ana_post now true w1 in
  let w2 := res.2 in
  let sid := "42_" +:+ pretty now in
  let text := logText (Some "42") (JStr "Ana") (JStr "ana") "+639171234567"
                (JStr "445566") in
  res.1 = mkResponse 200 true None
  ∧ submissions w2 !! sid
    = Some (mkSubmission (Some "42") (JStr "445566") "+639171234567"
              (JStr "ana") (JStr "Ana"))
  ∧ new_effects w1 w2
    = [SendMessage ADMIN_CHAT_ID text
         [[mkButton "✅ Approve" ("approve:" +:+ sid);
           mkButton "❌ Reject" ("reject:" +:+ sid)]] true]
  ∧ includes text "445566" = true
  ∧ scheduledDeletions w2 !! "typing_42" = Some (next_handle w1)
  ∧ timers w2 !! next_handle w1 = Some (mkTimer Repeating (TypingCb "42") 4000)
  ∧ (∀ w p, userPhones w !! "42" = Some p → p ≠ "" →
        ∃ s, submissions (api_log_code ana_post now true w).2 !! sid = Some s
             ∧ telegramPhone s = p)
  ∧ (∀ w, userPhones w !! "42" = None →
        ∃ s, submissions (api_log_code ana_post now true w).2 !! sid = Some s
             ∧ telegramPhone s = "Unknown phone").
Proof.
  intros w1 res w2 sid text.
  assert (userPhones w1 !! "42" = Some "+639171234567") as Hphone.
  { unfold w1. rewrite on_text_world.
    change (isPhone (trim "+639171234567")) with true. cbv zeta iota.
    match goal with |- context [replyAndAutoDelete ?c ?t ?e ?r ?w0] =>
      destruct (replyAndAutoDelete_frame c t e r w0) as (_ & -> & _) end.
    cbn [userPhones set_userPhones from_id].
    change (pretty 42) with "42". change (trim "+639171234567") with "+639171234567".
    apply lookup_insert_eq. }
  assert (∀ w, (api_log_code ana_post now true w).2
    = emit (SendMessage ADMIN_CHAT_ID
              (logText (Some "42") (JStr "Ana") (JStr "ana")
                 (telegramPhone_of (Some "42") w) (JStr "445566"))
              (decision_keyboard sid) true)
        (typing_only_effect (Some "42")
           (set_submissions
              <[sid := mkSubmission (Some "42") (JStr "445566")
                         (telegramPhone_of (Some "42") w)
                         (JStr "ana") (JStr "Ana")]> w))) as Hrun.
  { intros w. by rewrite api_log_code_accepted. }
  assert (∀ w, submissions (api_log_code ana_post now true w).2 !! sid
    = Some (mkSubmission (Some "42") (JStr "445566")
              (telegramPhone_of (Some "42") w) (JStr "ana") (JStr "Ana")))
    as Hstored.
  { intros w. rewrite Hrun. cbn [submissions emit].
    match goal with |- context [typing_only_effect (Some ?u) ?w0] =>
      destruct (typing_registers u w0 eq_refl) as (_ & _ & _ & ->) end.
    cbn [submissions set_submissions]. apply lookup_insert_eq. }
  assert (telegramPhone_of (Some "42") w1 = "+639171234567") as Hcontact.
  { unfold telegramPhone_of. cbn [truthy_str show_str].
    change (negb (String.eqb "42" "")) with true. cbv iota.
    by rewrite Hphone. }
  split; [unfold res; by rewrite api_log_code_accepted|].
  split; [unfold w2, res; by rewrite Hstored, Hcontact|].
  split.
  { apply new_effects_app. unfold w2, res. rewrite Hrun, Hcontact.
    cbn [outbox emit].
    match goal with |- context [typing_only_effect (Some ?u) ?w0] =>
      destruct (typing_registers u w0 eq_refl) as (_ & _ & -> & _) end.
    done. }
  split; [by vm_compute|].
  split.
  { unfold w2, res. rewrite Hrun. cbn [scheduledDeletions emit].
    match goal with |- context [typing_only_effect (Some ?u) ?w0] =>
      destruct (typing_registers u w0 eq_refl) as (Hreg & _) end.
    exact Hreg. }
  split.
  { unfold w2, res. rewrite Hrun. cbn [timers emit].
    match goal with |- context [typing_only_effect (Some ?u) ?w0] =>
      destruct (typing_registers u w0 eq_refl) as (_ & Ht & _) end.
    exact Ht. }
  split.
  - intros w p Hp Hne. eexists. split; [apply Hstored|].
    cbn [telegramPhone]. unfold telegramPhone_of. cbn [truthy_str show_str].
    change (negb (String.eqb "42" "")) with true. cbv iota. rewrite Hp.
    destruct (String.eqb_spec p ""); [done|done].
  - intros w Hp. eexists. split; [apply Hstored|].
    cbn [telegramPhone]. unfold telegramPhone_of. cbn [truthy_str show_str].
    change (negb (String.eqb "42" "")) with true. cbv iota. by rewrite Hp.
Qed.

(** C9: a submission with a truthy code and no (or a falsy) tgUser.id,
    whose notification the transport takes, is answered 200 {ok:true};
    the record is stored under "unknown_<Date.now()>" with userId null and
    contact "Unknown phone"; the reviewer notification is the only
    transport call; and neither the timers nor the registry change: no
    typing interval is installed. *)
Theorem C9_submission_without_user (w : World) (b : Req.Body) (now : Z) :
  truthy (Req.code b) = true →
  truthy (opt_chain Req.id (Req.tgUser b)) = false →
  let res := api_log_code b now true w in
  let w' := res.2 in
  let sid := "unknown_" +:+ pretty now in
  let user := or_else (opt_chain Req.username (Req.tgUser b)) (JStr "") in
  let first := or_else (opt_chain Req.first_name (Req.tgUser b)) (JStr "") in
  res.1 = mkResponse 200 true None
  ∧ submissions w'
    = <[sid := mkSubmission None (Req.code b) "Unknown phone" user first]>
        (submissions w)
  ∧ new_effects w w'
    = [SendMessage ADMIN_CHAT_ID
         (logText None first user "Unknown phone" (Req.code b))
         [[mkButton "✅ Approve" ("approve:" +:+ sid);
           mkButton "❌ Reject" ("reject:" +:+ sid)]] true]
  ∧ timers w' = timers w
  ∧ scheduledDeletions w' = scheduledDeletions w
  ∧ next_handle w' = next_handle w
  ∧ userPhones w' = userPhones w.
Proof.
  intros Hc Hid res w' sid user first.
  unfold w', res. rewrite api_log_code_accepted by done.
  unfold userId_of. rewrite Hid. cbn [fst snd].
  rewrite typing_skipped by done.
  split; [done|]. split; [done|]. split; [|done].
  by apply new_effects_app.
Qed.


(** ** Expiry of sent messages *)

Lemma typing_only_effect_frame (u : option string) (w : World) :
  let w' := typing_only_effect u w in
  outbox w' = outbox w
  ∧ (∀ c m, scheduledDeletions w' !! deletion_key c m
            = scheduledDeletions w !! deletion_key c m)
  ∧ (∀ h t, t_kind t = OneShot → timers w' !! h = Some t →
            timers w !! h = Some t).
Proof.
  unfold typing_only_effect. destruct (truthy_str u); [|done].
  destruct (stopTypingLoop_frame u w) as (Ho & _).
  cbn. split; [done|]. split.
  - intros c m. rewrite lookup_insert_ne
      by (intros Heq; by destruct (deletion_key_not_typing c m (show_str u))).
    unfold stopTypingLoop, clearInterval.
    destruct (scheduledDeletions w !! typing_key (show_str u)) as [h|]; [|done].
    cbn. destruct (clear_frame Repeating h w) as (_ & _ & _ & -> & _).
    rewrite lookup_delete_ne; [done|].
    intros Heq. by destruct (deletion_key_not_typing c m (show_str u)).
  - intros h t Hk Ht.
    apply lookup_insert_Some in Ht as [[_ <-]|[_ Ht]]; [done|].
    revert Ht. unfold stopTypingLoop, clearInterval, clear.
    repeat case_match; cbn; try done.
    by intros [_ Ht]%lookup_delete_Some.
Qed.

Lemma fire_outbox (h : nat) (w : World) :
  ∃ pre, outbox (fire h w) = (outbox w ++ pre)%list ∧ Forall quiet pre.
Proof.
  unfold fire. destruct (timers w !! h) as [t|].
  - destruct (t_cb t), (t_kind t); cbn;
      eexists [_]; (split; [done|]); by repeat constructor.
  - exists []. by rewrite app_nil_r.
Qed.

Lemma quiet_not_reply (pre : list Effect) chat text pm r :
  Forall quiet pre → Reply chat text pm r ∉ pre.
Proof. intros Hq Hin. by apply (proj1 (Forall_forall _ _) Hq) in Hin. Qed.

Lemma quiet_not_send (pre : list Effect) chat text kb a :
  Forall quiet pre → SendMessage chat text kb a ∉ pre.
Proof. intros Hq Hin. by apply (proj1 (Forall_forall _ _) Hq) in Hin. Qed.

Lemma reply_registers (ctx : Ctx) (text extra : string) (mid : Z) (w : World) :
  expiry_scheduled (chat_id ctx) mid
    (world_of (replyAndAutoDelete ctx text extra (Some mid) w)).
Proof.
  rewrite replyAndAutoDelete_run. unfold world_of; cbn [snd].
  match goal with |- context [scheduleDelete ?c ?m ?d ?w0] =>
    destruct (scheduleDelete_registers c m d w0) as (Hreg & Ht) end.
  eexists. split; [exact Hreg|exact Ht].
Qed.

Lemma quiet_turn (w w' : World) (pre : list Effect) :
  outbox w' = (outbox w ++ pre)%list → Forall quiet pre → replies_expire w w'.
Proof.
  intros Ho Hq. unfold replies_expire. rewrite (new_effects_app _ _ _ Ho).
  split.
  - intros chat text pm mid Hin. by destruct (quiet_not_reply _ _ _ _ _ Hq Hin).
  - intros chat text kb a. by apply quiet_not_send.
Qed.

Lemma reply_turn (w w1 : World) (pre : list Effect) (ctx : Ctx)
    (text extra : string) (r : option Z) :
  outbox w1 = (outbox w ++ pre)%list → Forall quiet pre →
  replies_expire w (world_of (replyAndAutoDelete ctx text extra r w1)).
Proof.
  intros Ho Hq.
  destruct (replyAndAutoDelete_frame ctx text extra r w1) as (Ho' & _).
  rewrite Ho, <- app_assoc in Ho'.
  unfold replies_expire. rewrite (new_effects_app _ _ _ Ho').
  split.
  - intros chat t pm mid [Hin|Hin]%elem_of_app.
    + by destruct (quiet_not_reply _ _ _ _ _ Hq Hin).
    + apply list_elem_of_singleton in Hin. simplify_eq.
      apply reply_registers.
  - intros chat t kb a [Hin|Hin]%elem_of_app.
    + by destruct (quiet_not_send _ _ _ _ _ Hq Hin).
    + by apply list_elem_of_singleton in Hin.
Qed.


Lemma decide_found_reply (label text : string) (ctx : Ctx)
    (u : option string) (a : bool) (r : option Z) (w : World) :
  world_of (decide_found label text ctx u a r w) =
  let w1 := emit (AnswerCbQuery label false a) (stopTypingLoop u w) in
  if a then world_of (replyAndAutoDelete ctx text "HTML" r w1) else w1.
Proof. by destruct a, r. Qed.

Lemma decide_found_expires (label text : string) (ctx : Ctx)
    (u : option string) (a : bool) (r : option Z) (w : World) :
  replies_expire w (world_of (decide_found label text ctx u a r w)).
Proof.
  rewrite decide_found_reply; cbv zeta.
  destruct (stopTypingLoop_frame u w) as (Ho & _).
  assert (outbox (emit (AnswerCbQuery label false a) (stopTypingLoop u w))
          = (outbox w ++ [AnswerCbQuery label false a])%list) as Ho1
    by (cbn; by rewrite Ho).
  assert (Forall quiet [AnswerCbQuery label false a]) as Hq
    by by repeat constructor.
  destruct a; [by eapply reply_turn|by eapply quiet_turn].
Qed.

(** C7: an approve, and likewise a reject, on an id that is in the
    Submission Store first stops the typing loop of the submission's user:
    the [typing_<userId>] entry is gone, its interval is cancelled, and no
    timer is left under that key, whatever the transport answers
    afterwards.  The handler then acknowledges the trigger ("Approved"
    resp. "Rejected") and, the acknowledgement taken, issues exactly one
    reply, the confirmation; when the transport creates that message its
    deletion after 1,800,000 ms is pending at the end of the turn. *)
Theorem C7_decision_on_stored_submission (es : list Event) (ctx : Ctx)
    (sid : string) (data : Submission) :
  let w := run es init in
  submissions w !! sid = Some data →
  let key := typing_key (show_str (userId data)) in
  let chat := chat_id ctx in
  let stopped w' :=
    scheduledDeletions w' !! key = None
    ∧ live_under key w' = []
    ∧ ∀ h, scheduledDeletions w !! key = Some h →
           live_under key w = [h] ∧ retired h w' in
  (∀ a r,
     let w' := world_of (on_approve ctx sid a r w) in
     new_effects w w'
     = AnswerCbQuery "Approved" false a
         :: (if a then [Reply chat (approved_text data) "HTML" r] else [])
     ∧ stopped w'
     ∧ ∀ mid, a = true → r = Some mid → expiry_scheduled chat mid w')
  ∧ (∀ a r,
       let w' := world_of (on_reject ctx sid a r w) in
       new_effects w w'
       = AnswerCbQuery "Rejected" false a
           :: (if a then [Reply chat (rejected_text (userId data)) "HTML" r]
               else [])
       ∧ stopped w'
       ∧ ∀ mid, a = true → r = Some mid → expiry_scheduled chat mid w').
Proof.
  intros w Hs key chat stopped.
  pose proof (reachable_ok es) as Hok. fold w in Hok.
  assert (∀ label text a r,
    let w' := world_of (decide_found label text ctx (userId data) a r w) in
    new_effects w w'
    = AnswerCbQuery label false a
        :: (if a then [Reply chat text "HTML" r] else [])
    ∧ stopped w'
    ∧ ∀ mid, a = true → r = Some mid → expiry_scheduled chat mid w') as Hboth.
  { intros label text a r w'.
    split; [apply decide_found_effects|]. split.
    - destruct (decide_found_stops label text ctx (userId data) a r w Hok)
        as (_ & Hfree & Hlive & Hret).
      split; [done|]. split; [done|].
      intros h Hk. split; [by apply live_under_occupied|by apply Hret].
    - intros mid -> ->. unfold w'. rewrite decide_found_reply.
      apply reply_registers. }
  split; intros a r.
  - rewrite (on_approve_found _ _ _ _ _ _ Hs). apply Hboth.
  - rewrite (on_reject_found _ _ _ _ _ _ Hs). apply Hboth.
Qed.

Lemma not_found_expires (a : bool) (w : World) :
  replies_expire w (emit (AnswerCbQuery "Not found or expired" true a) w).
Proof. eapply quiet_turn; [done|]. by repeat constructor. Qed.

Lemma silent_turn (w w' : World) : outbox w' = outbox w → replies_expire w w'.
Proof.
  intros Ho. apply (quiet_turn w w' []); [by rewrite app_nil_r|constructor].
Qed.

(** C8: in any turn of the event loop, from any state, every message the
    transport created for a [reply] has, when the turn ends, its deletion
    pending under [chatId:messageId] as an active one-shot timer of
    1,800,000 ms; and the only message sent otherwise is the reviewer
    notification of a submission, sent to ADMIN_CHAT_ID with the decision
    keyboard, for which nothing is scheduled: that turn changes no entry
    under a deletion key and leaves no one-shot timer that was not there
    before. *)
Theorem C8_messages_expire_except_notification (w : World) (e : Event) :
  let w' := step w e in
  (∀ chat text pm mid,
     Reply chat text pm (Some mid) ∈ new_effects w w' →
     expiry_scheduled chat mid w')
  ∧ (∀ chat text kb a,
       SendMessage chat text kb a ∈ new_effects w w' →
       (∃ b now,
          e = EvLogCode b now a
          ∧ chat = ADMIN_CHAT_ID
          ∧ kb = decision_keyboard
                   (submissionId_of (userId_of (Req.tgUser b)) now)
          ∧ new_effects w w' = [SendMessage chat text kb a])
       ∧ (∀ c m, scheduledDeletions w' !! deletion_key c m
                 = scheduledDeletions w !! deletion_key c m)
       ∧ (∀ h t, t_kind t = OneShot → timers w' !! h = Some t →
                 timers w !! h = Some t)).
Proof.
  intros w'.
  assert (replies_expire w w' →
    (∀ chat text pm mid,
       Reply chat text pm (Some mid) ∈ new_effects w w' →
       expiry_scheduled chat mid w')
    ∧ (∀ chat text kb a,
         SendMessage chat text kb a ∈ new_effects w w' →
         (∃ b now,
            e = EvLogCode b now a
            ∧ chat = ADMIN_CHAT_ID
            ∧ kb = decision_keyboard
                     (submissionId_of (userId_of (Req.tgUser b)) now)
            ∧ new_effects w w' = [SendMessage chat text kb a])
         ∧ (∀ c m, scheduledDeletions w' !! deletion_key c m
                   = scheduledDeletions w !! deletion_key c m)
         ∧ (∀ h t, t_kind t = OneShot → timers w' !! h = Some t →
                   timers w !! h = Some t))) as Hother.
  { intros [H1 H2]. split; [done|]. intros chat text kb a Hin.
    by destruct (H2 _ _ _ _ Hin). }
  destruct e as [ctx p r|ctx t r|ctx s a r|ctx s a r|b n a|h|c m d|u|u];
    unfold w'; cbn [step].
  - apply Hother. unfold w'; cbn [step].
    unfold on_start. case_match; rewrite then_unit_world;
      (eapply (reply_turn w w []); [by rewrite app_nil_r|constructor]).
  - apply Hother. unfold w'; cbn [step].
    rewrite on_text_world; cbv zeta.
    destruct (isPhone (trim t));
      (eapply (reply_turn w _ []); [by rewrite app_nil_r|constructor]).
  - apply Hother. unfold w'; cbn [step].
    destruct (submissions w !! s) as [data|] eqn:Hs.
    + rewrite (on_approve_found _ _ _ _ _ _ Hs). apply decide_found_expires.
    + rewrite (on_approve_absent _ _ _ _ _ Hs). apply not_found_expires.
  - apply Hother. unfold w'; cbn [step].
    destruct (submissions w !! s) as [data|] eqn:Hs.
    + rewrite (on_reject_found _ _ _ _ _ _ Hs). apply decide_found_expires.
    + rewrite (on_reject_absent _ _ _ _ _ Hs). apply not_found_expires.
  - destruct (truthy (Req.code b)) eqn:Hc.
    + rewrite api_log_code_accepted by done. cbn [snd].
      set (uid := userId_of (Req.tgUser b)).
      set (w0 := set_submissions _ w).
      destruct (typing_only_effect_frame uid w0) as (Ho & Hreg & Htm).
      set (msg := SendMessage _ _ _ a).
      assert (new_effects w (emit msg (typing_only_effect uid w0)) = [msg])
        as Hnew by (apply new_effects_app; cbn; by rewrite Ho).
      rewrite Hnew. split.
      * intros chat text pm mid Hin.
        by apply list_elem_of_singleton in Hin.
      * intros chat text kb a' Hin.
        apply list_elem_of_singleton in Hin. unfold msg in Hin.
        injection Hin as -> -> -> ->.
        split; [by exists b, n|]. split; [exact Hreg|exact Htm].
    + apply Hother. unfold w'; cbn [step].
      unfold api_log_code. rewrite Hc. by apply silent_turn.
  - apply Hother. unfold w'; cbn [step].
    destruct (fire_outbox h w) as (pre & Ho & Hq). by eapply quiet_turn.
  - apply Hother. unfold w'; cbn [step].
    apply silent_turn. by destruct (scheduleDelete_frame c m d w).
  - apply Hother. unfold w'; cbn [step].
    apply silent_turn. by destruct (typing_only_effect_frame u w).
  - apply Hother. unfold w'; cbn [step].
    apply silent_turn. by destruct (stopTypingLoop_frame u w).
Qed.


(** * Further properties of the code *)

(** ** Characters of the keys and identifiers *)

Lemma numeric_pretty_N_go (x : N) (s : string) :
  numeric s = true → numeric (pretty_N_go x s) = true.
Proof.
  revert s. induction (N.lt_wf_0 x) as [x _ IH]; intros s Hs.
  destruct (decide (x = 0%N)) as [->|Hx].
  - by rewrite pretty_N_go_0.
  - rewrite pretty_N_go_step by lia.
    apply IH; [apply N.div_lt; lia|].
    cbn [numeric]. by rewrite pretty_N_char_digit, Hs.
Qed.

Lemma numeric_pretty_N (x : N) : numeric (pretty x) = true.
Proof.
  unfold pretty, pretty_N. case_decide; [done|]. by apply numeric_pretty_N_go.
Qed.

Lemma numeric_pretty_Z (z : Z) : numeric (pretty z) = true.
Proof.
  destruct z as [|p|p]; [done|apply (numeric_pretty_N (N.pos p))|].
  change (numeric (String "-" (pretty (N.pos p))) = true).
  cbn [numeric]. by rewrite numeric_pretty_N.
Qed.

Lemma numeric_occurs (c : ascii) (s : string) :
  numeric s = true → is_digit c = false → c ≠ "-"%char → occurs c s = false.
Proof.
  intros Hs Hd Hm. induction s as [|a r IH]; [done|].
  cbn [numeric occurs] in *. apply andb_true_iff in Hs as [Ha Hr].
  rewrite (IH Hr), orb_false_r.
  destruct (Ascii.eqb_spec c a) as [<-|]; [|done].
  rewrite Hd in Ha. cbn in Ha. by destruct (Ascii.eqb_spec c "-").
Qed.

Lemma occurs_app (c : ascii) (s t : string) :
  occurs c (s +:+ t) = occurs c s || occurs c t.
Proof.
  induction s as [|a r IH]; [done|].
  change (occurs c (String a (r +:+ t)) = occurs c (String a r) || occurs c t).
  cbn [occurs]. by rewrite IH, orb_assoc.
Qed.

Lemma occurs_middle (c : ascii) (s t : string) :
  occurs c (s +:+ String c t) = true.
Proof.
  rewrite occurs_app. cbn [occurs]. rewrite Ascii.eqb_refl.
  by rewrite orb_true_r.
Qed.

(** A text is cut in one way only at a separator that its left part, or
    its right part, does not contain. *)
Lemma cut_left_unique (sep : ascii) (s s' t t' : string) :
  occurs sep s = false → occurs sep s' = false →
  s +:+ String sep t = s' +:+ String sep t' → s = s' ∧ t = t'.
Proof.
  revert s'. induction s as [|a r IH]; intros [|a' r'] Hs Hs' Heq;
    cbn [String.append occurs] in *.
  - by injection Heq as ->.
  - injection Heq as <- _. by rewrite Ascii.eqb_refl in Hs'.
  - injection Heq as -> _. by rewrite Ascii.eqb_refl in Hs.
  - injection Heq as -> Heq.
    apply orb_false_iff in Hs as [_ Hs]. apply orb_false_iff in Hs' as [_ Hs'].
    by destruct (IH r' Hs Hs' Heq) as [-> ->].
Qed.

Lemma cut_right_unique (sep : ascii) (s s' t t' : string) :
  occurs sep t = false → occurs sep t' = false →
  s +:+ String sep t = s' +:+ String sep t' → s = s' ∧ t = t'.
Proof.
  intros Ht Ht'. revert s'. induction s as [|a r IH]; intros [|a' r'] Heq;
    cbn [String.append] in *.
  - by injection Heq as ->.
  - injection Heq as _ ->. by rewrite occurs_middle in Ht.
  - injection Heq as _ <-. by rewrite occurs_middle in Ht'.
  - injection Heq as -> Heq. by destruct (IH r' Heq) as [-> ->].
Qed.

Lemma pretty_Z_no_char (c : ascii) (z : Z) :
  is_digit c = false → c ≠ "-"%char → occurs c (pretty z) = false.
Proof. intros. by apply numeric_occurs; [apply numeric_pretty_Z|..]. Qed.

Lemma deletion_key_inj (c m c' m' : Z) :
  deletion_key c m = deletion_key c' m' → c = c' ∧ m = m'.
Proof.
  unfold deletion_key. cbn [String.append]. intros Heq.
  apply cut_left_unique in Heq as [Hc Hm];
    [|by apply pretty_Z_no_char..].
  split; by apply (inj pretty).
Qed.

Lemma typing_key_inj (u u' : string) : typing_key u = typing_key u' → u = u'.
Proof. unfold typing_key. intros Heq. by simplify_eq/=. Qed.


(** ** More on the timer registry *)

Lemma registry_inj (k k' : string) (h : nat) (w : World) :
  registry_ok w →
  scheduledDeletions w !! k = Some h → scheduledDeletions w !! k' = Some h →
  k = k'.
Proof.
  intros Hok Hk Hk'.
  destruct (registered_live _ Hok _ _ Hk) as (t & Ht & <-).
  destruct (registered_live _ Hok _ _ Hk') as (t' & Ht' & <-).
  congruence.
Qed.

Lemma typing_entry_timer (u : string) (h : nat) (w : World) :
  registry_ok w → scheduledDeletions w !! typing_key u = Some h →
  ∃ t, timers w !! h = Some t ∧ t_cb t = TypingCb u ∧ t_kind t = Repeating.
Proof.
  intros Hok Hk.
  destruct (registered_kind _ _ _ Hok Hk) as (t & Ht & Hkt & Hwk).
  exists t. split; [done|]. unfold well_kinded in Hwk.
  destruct (t_cb t) as [c m key|u']; cbn [cb_key] in Hkt.
  - destruct Hwk as [_ ->]. by destruct (deletion_key_not_typing c m u).
  - by apply typing_key_inj in Hkt as ->.
Qed.

Lemma deletion_entry_timer (c m : Z) (h : nat) (w : World) :
  registry_ok w → scheduledDeletions w !! deletion_key c m = Some h →
  ∃ t, timers w !! h = Some t
       ∧ t_cb t = DeleteCb c m (deletion_key c m) ∧ t_kind t = OneShot.
Proof.
  intros Hok Hk.
  destruct (registered_kind _ _ _ Hok Hk) as (t & Ht & Hkt & Hwk).
  exists t. split; [done|]. unfold well_kinded in Hwk.
  destruct (t_cb t) as [c' m' key|u']; cbn [cb_key] in Hkt.
  - destruct Hwk as [-> ->]. by apply deletion_key_inj in Hkt as [-> ->].
  - by destruct (deletion_key_not_typing c m u').
Qed.

Lemma typing_period_ok_ext (w w' : World) :
  timers w' = timers w → typing_period_ok w → typing_period_ok w'.
Proof. unfold typing_period_ok. by intros ->. Qed.

Lemma typing_period_clear (k : TimerKind) (h : nat) (w : World) :
  typing_period_ok w → typing_period_ok (clear k h w).
Proof.
  intros Hp. unfold clear. repeat case_match; try done.
  intros h' t' u Ht. cbn in Ht. apply lookup_delete_Some in Ht as [_ Ht].
  by eapply Hp.
Qed.

Lemma typing_period_install (k : TimerKind) (cb : Callback) (d : Z) (w : World) :
  (∀ u, cb = TypingCb u → d = 4000) →
  typing_period_ok w → typing_period_ok (install k cb d w).2.
Proof.
  intros Hd Hp h t u Ht. cbn in Ht.
  apply lookup_insert_Some in Ht as [[_ <-]|[_ Ht]]; [by apply Hd|].
  by eapply Hp.
Qed.

Lemma typing_period_reachable (es : list Event) : typing_period_ok (run es init).
Proof.
  apply run_preserves.
  - intros e w Hp. by eapply typing_period_ok_ext.
  - intros f w Hp. by eapply typing_period_ok_ext.
  - intros f w Hp. by eapply typing_period_ok_ext.
  - intros c m d w Hp. unfold scheduleDelete.
    eapply typing_period_ok_ext;
      [|apply (typing_period_install OneShot
                 (DeleteCb c m (deletion_key c m)) d); [done|]]; [done|].
    case_match; [by apply typing_period_clear|done].
  - intros u w Hp. unfold stopTypingLoop. case_match; [|done].
    eapply typing_period_ok_ext; [|by apply (typing_period_clear Repeating)].
    done.
  - intros u w Hp. unfold typing_only_effect. case_match; [|done].
    eapply typing_period_ok_ext;
      [|apply (typing_period_install Repeating (TypingCb (show_str u)) 4000);
        [done|]]; [done|].
    unfold stopTypingLoop. case_match; [|done].
    eapply typing_period_ok_ext; [|by apply (typing_period_clear Repeating)].
    done.
  - intros h w Hp. unfold fire. destruct (timers w !! h) as [t|]; [|done].
    assert (typing_period_ok (match t_kind t with
                              | OneShot => set_timers (delete h) w
                              | Repeating => w
                              end)) as Hp1.
    { destruct (t_kind t); [|done].
      intros h' t' u Ht. cbn in Ht. apply lookup_delete_Some in Ht as [_ Ht].
      by eapply Hp. }
    unfold run_callback. destruct (t_cb t); by eapply typing_period_ok_ext.
  - intros h t u Ht. cbn in Ht. by rewrite lookup_empty in Ht.
Qed.

Lemma typing_entry_exact (es : list Event) (u : string) (h : nat) :
  scheduledDeletions (run es init) !! typing_key u = Some h →
  timers (run es init) !! h = Some (mkTimer Repeating (TypingCb u) 4000).
Proof.
  intros Hk.
  destruct (typing_entry_timer u h _ (reachable_ok es) Hk)
    as (t & Ht & Hcb & Hkind).
  pose proof (typing_period_reachable es _ _ _ Ht Hcb) as Hd.
  destruct t as [k cb d]. cbn in Hcb, Hkind, Hd. by subst.
Qed.

(** X1: in every reachable state the registry mirrors the runtime: the
    handles it holds are exactly the active timers, no handle is held
    under two keys, a deletion key holds a one-shot timer that deletes the
    message the key names, and a typing key holds a 4000 ms interval that
    signals the user the key names. *)
Theorem registry_mirrors_timers (es : list Event) :
  let w := run es init in
  (map_img (scheduledDeletions w) : gset nat) = dom (timers w)
  ∧ (∀ k k' h, scheduledDeletions w !! k = Some h →
               scheduledDeletions w !! k' = Some h → k = k')
  ∧ (∀ c m h, scheduledDeletions w !! deletion_key c m = Some h →
       ∃ d, timers w !! h
            = Some (mkTimer OneShot (DeleteCb c m (deletion_key c m)) d))
  ∧ (∀ u h, scheduledDeletions w !! typing_key u = Some h →
       timers w !! h = Some (mkTimer Repeating (TypingCb u) 4000))
  ∧ (∀ k h, scheduledDeletions w !! k = Some h →
       (∃ c m, k = deletion_key c m) ∨ (∃ u, k = typing_key u)).
Proof.
  intros w. pose proof (reachable_ok es) as Hok. fold w in Hok.
  pose proof (typing_period_reachable es) as Hp. fold w in Hp.
  split; [|split; [|split; [|split]]].
  - apply set_eq. intros h. rewrite elem_of_map_img, elem_of_dom. split.
    + intros (k & Hk). destruct (registered_live _ Hok _ _ Hk) as (t & Ht & _).
      by exists t.
    + intros (t & Ht). eexists. by apply (live_registered _ Hok).
  - intros k k' h. by apply registry_inj.
  - intros c m h Hk.
    destruct (deletion_entry_timer c m h w Hok Hk) as ([k cb d] & Ht & Hcb & Hkind).
    cbn in Hcb, Hkind. subst. by exists d.
  - intros u h. apply typing_entry_exact.
  - intros k h Hk.
    destruct (registered_kind _ _ _ Hok Hk) as (t & Ht & <- & Hwk).
    unfold well_kinded in Hwk. destruct (t_cb t) as [c m key|u]; cbn [cb_key].
    + left. destruct Hwk as [_ ->]. eauto.
    + right. eauto.
Qed.

(** X2: when the timer of a pending deletion runs, in a reachable state,
    the one call it issues is [deleteMessage] for that message; its entry
    leaves the registry and no timer is left under the key; every other
    entry and timer is as before; and the timer is spent: running it
    again, now or after any later events, does nothing. *)
Theorem deletion_fires_once (es : list Event) (c m : Z) (h : nat) :
  let w := run es init in
  scheduledDeletions w !! deletion_key c m = Some h →
  let w' := fire h w in
  new_effects w w' = [DeleteMessage c m]
  ∧ scheduledDeletions w' = delete (deletion_key c m) (scheduledDeletions w)
  ∧ timers w' = delete h (timers w)
  ∧ live_under (deletion_key c m) w' = []
  ∧ submissions w' = submissions w
  ∧ userPhones w' = userPhones w
  ∧ ∀ es', fire h (run es' w') = run es' w'.
Proof.
  intros w Hk w'.
  pose proof (reachable_ok es) as Hok. fold w in Hok.
  destruct (deletion_entry_timer c m h w Hok Hk) as (t & Ht & Hcb & Hkind).
  pose proof (live_below _ Hok _ _ Ht) as Hlt.
  assert (w' = set_scheduledDeletions (delete (deletion_key c m))
                 (emit (DeleteMessage c m) (set_timers (delete h) w))) as ->.
  { unfold w', fire. rewrite Ht, Hkind, Hcb. done. }
  split; [by apply new_effects_app|].
  split; [done|]. split; [done|]. split.
  { apply live_under_free; [|cbn; apply lookup_delete_eq].
    eapply registry_ok_ext; [| | |by apply (cancel_ok _ _ _ Hok Hk)]; done. }
  split; [done|]. split; [done|].
  intros es'. apply fire_retired, retired_run.
  split; cbn; [apply lookup_delete_eq|done].
Qed.

(** X3: a tick of a typing loop, in a reachable state, issues the one
    call [sendChatAction(userId, "typing")] and changes nothing else, so
    the loop stays as it is and [n] ticks in a row issue [n] signals. *)
Theorem typing_ticks (es : list Event) (u : string) (h : nat) (n : nat) :
  let w := run es init in
  scheduledDeletions w !! typing_key u = Some h →
  Nat.iter n (fire h) w
  = mkWorld (userPhones w) (submissions w) (scheduledDeletions w) (timers w)
      (next_handle w) (outbox w ++ replicate n (SendChatAction u "typing")).
Proof.
  intros w Hk.
  pose proof (reachable_ok es) as Hok. fold w in Hok.
  destruct (typing_entry_timer u h w Hok Hk) as (t & Ht & Hcb & Hkind).
  induction n as [|n IH].
  - cbn [replicate]. rewrite app_nil_r. by destruct w.
  - change (Nat.iter (S n) (fire h) w) with (fire h (Nat.iter n (fire h) w)).
    rewrite IH. unfold fire; cbn [timers]. rewrite Ht, Hkind, Hcb.
    rewrite replicate_S_end, app_assoc. done.
Qed.

(** X4: stopping a typing loop twice is stopping it once, and stopping a
    loop that is not registered (never started, or already stopped)
    returns the state untouched. *)
Theorem stopTypingLoop_idempotent (u : option string) (w : World) :
  stopTypingLoop u (stopTypingLoop u w) = stopTypingLoop u w
  ∧ (scheduledDeletions w !! typing_key (show_str u) = None →
     stopTypingLoop u w = w)
  ∧ scheduledDeletions (stopTypingLoop u w) !! typing_key (show_str u) = None.
Proof.
  assert (∀ w0, scheduledDeletions w0 !! typing_key (show_str u) = None →
                stopTypingLoop u w0 = w0) as Hnone.
  { intros w0 Hk. unfold stopTypingLoop. by rewrite Hk. }
  split; [apply Hnone, stopTypingLoop_free|].
  split; [apply Hnone|apply stopTypingLoop_free].
Qed.

(** X5: starting a typing loop and stopping it again, from a reachable
    state, leaves the timers and the registry exactly as a bare stop
    would: the new interval is gone, and so is any interval the user had
    before.  Only a handle was used up. *)
Theorem start_then_stop (es : list Event) (u : string) :
  let w := run es init in
  let w' := stopTypingLoop (Some u) (typing_only_effect (Some u) w) in
  truthy_str (Some u) = true →
  timers w' = timers (stopTypingLoop (Some u) w)
  ∧ scheduledDeletions w' = scheduledDeletions (stopTypingLoop (Some u) w)
  ∧ live_under (typing_key u) w' = []
  ∧ next_handle w' = S (next_handle w)
  ∧ outbox w' = outbox w
  ∧ submissions w' = submissions w
  ∧ userPhones w' = userPhones w.
Proof.
  intros w w' Hu.
  pose proof (reachable_ok es) as Hok. fold w in Hok.
  set (w0 := stopTypingLoop (Some u) w).
  assert (registry_ok w0) as Hok0 by by apply stopTypingLoop_ok.
  pose proof (stopTypingLoop_free (Some u) w) as Hfree. fold w0 in Hfree.
  destruct (stopTypingLoop_frame (Some u) w) as (Ho & Hs & Hp & Hn).
  fold w0 in Ho, Hs, Hp, Hn.
  set (w1 := typing_only_effect (Some u) w).
  assert (w1 = set_scheduledDeletions <[typing_key u := next_handle w0]>
                 (install Repeating (TypingCb u) 4000 w0).2) as Hw1.
  { unfold w1, typing_only_effect. by rewrite Hu. }
  assert (registry_ok w1) as Hok1 by by apply typing_only_effect_ok.
  assert (scheduledDeletions w1 !! typing_key u = Some (next_handle w0)) as Hk1.
  { rewrite Hw1. cbn. apply lookup_insert_eq. }
  assert (timers w0 !! next_handle w0 = None) as Hfresh.
  { destruct (timers w0 !! next_handle w0) as [t|] eqn:Ht; [|done].
    apply (live_below _ Hok0) in Ht. lia. }
  unfold w'. fold w1.
  rewrite (stopTypingLoop_occupied (Some u) _ w1 Hok1 Hk1).
  cbn [timers scheduledDeletions set_scheduledDeletions set_timers
       next_handle outbox submissions userPhones show_str].
  assert (live_under (typing_key u)
            (set_scheduledDeletions (delete (typing_key u))
               (set_timers (delete (next_handle w0)) w1)) = []) as Hlive.
  { apply live_under_free; [by apply cancel_ok|]. cbn. apply lookup_delete_eq. }
  rewrite Hlive, Hw1. cbn.
  rewrite (delete_insert_id _ _ _ Hfresh), (delete_insert_id _ _ _ Hfree).
  rewrite Hn, Ho, Hs, Hp. done.
Qed.


(** ** Entries that an operation leaves alone *)

Lemma entry_intact_ext (k : string) (h : nat) (t : Timer) (w w' : World) :
  timers w' = timers w →
  scheduledDeletions w' = scheduledDeletions w →
  next_handle w' = next_handle w →
  entry_intact k h t w → entry_intact k h t w'.
Proof.
  intros Ht Hr Hn (Hok & Hk & Hh). split; [by eapply registry_ok_ext|].
  by rewrite Ht, Hr.
Qed.

Lemma entry_intact_emit (k : string) (h : nat) (t : Timer) (e : Effect)
    (w : World) :
  entry_intact k h t w → entry_intact k h t (emit e w).
Proof. by apply entry_intact_ext. Qed.

Lemma entry_intact_submissions (k : string) (h : nat) (t : Timer) f (w : World) :
  entry_intact k h t w → entry_intact k h t (set_submissions f w).
Proof. by apply entry_intact_ext. Qed.

Lemma entry_intact_userPhones (k : string) (h : nat) (t : Timer) f (w : World) :
  entry_intact k h t w → entry_intact k h t (set_userPhones f w).
Proof. by apply entry_intact_ext. Qed.

Lemma entry_intact_cancel (k k0 : string) (h h0 : nat) (t : Timer) (w : World) :
  k ≠ k0 → scheduledDeletions w !! k0 = Some h0 →
  entry_intact k h t w →
  entry_intact k h t
    (set_scheduledDeletions (delete k0) (set_timers (delete h0) w)).
Proof.
  intros Hne Hk0 (Hok & Hk & Hh).
  split; [by apply cancel_ok|]. cbn. split.
  - by rewrite lookup_delete_ne.
  - rewrite lookup_delete_ne; [done|].
    intros <-. by destruct Hne; apply (registry_inj _ _ h0 w).
Qed.

Lemma entry_intact_install (k : string) (h : nat) (t : Timer)
    (kind : TimerKind) (cb : Callback) (d : Z) (w : World) :
  k ≠ cb_key cb →
  scheduledDeletions w !! cb_key cb = None →
  well_kinded (mkTimer kind cb d) →
  entry_intact k h t w →
  entry_intact k h t
    (set_scheduledDeletions <[cb_key cb := next_handle w]>
       (install kind cb d w).2).
Proof.
  intros Hne Hfree Hwk (Hok & Hk & Hh).
  split; [by apply install_ok|]. cbn. split.
  - by rewrite lookup_insert_ne.
  - rewrite lookup_insert_ne; [done|].
    apply (live_below _ Hok) in Hh. lia.
Qed.

Lemma entry_intact_scheduleDelete (k : string) (h : nat) (t : Timer)
    (c m d : Z) (w : World) :
  k ≠ deletion_key c m →
  entry_intact k h t w → entry_intact k h t (scheduleDelete c m d w).
Proof.
  intros Hne Hin. pose proof Hin as (Hok & _).
  destruct (scheduledDeletions w !! deletion_key c m) as [h0|] eqn:Hk0.
  - rewrite (scheduleDelete_occupied _ _ _ _ _ Hok Hk0).
    apply (entry_intact_install k h t OneShot (DeleteCb c m (deletion_key c m)));
      [done|cbn; apply lookup_delete_eq|by split|].
    by apply entry_intact_cancel.
  - rewrite (scheduleDelete_free _ _ _ _ Hk0).
    by apply (entry_intact_install k h t OneShot
                (DeleteCb c m (deletion_key c m))).
Qed.

Lemma entry_intact_stop (k : string) (h : nat) (t : Timer)
    (u : option string) (w : World) :
  k ≠ typing_key (show_str u) →
  entry_intact k h t w → entry_intact k h t (stopTypingLoop u w).
Proof.
  intros Hne Hin. pose proof Hin as (Hok & _).
  destruct (scheduledDeletions w !! typing_key (show_str u)) as [h0|] eqn:Hk0.
  - rewrite (stopTypingLoop_occupied _ _ _ Hok Hk0).
    by apply entry_intact_cancel.
  - unfold stopTypingLoop. by rewrite Hk0.
Qed.

Lemma entry_intact_typing (k : string) (h : nat) (t : Timer)
    (u : option string) (w : World) :
  (truthy_str u = true → k ≠ typing_key (show_str u)) →
  entry_intact k h t w → entry_intact k h t (typing_only_effect u w).
Proof.
  intros Hne Hin. unfold typing_only_effect.
  destruct (truthy_str u); [|done].
  apply (entry_intact_install k h t Repeating (TypingCb (show_str u)));
    [by apply Hne|apply stopTypingLoop_free|done|].
  apply entry_intact_stop; [by apply Hne|done].
Qed.

Lemma entry_intact_fire (k : string) (h h' : nat) (t : Timer) (w : World) :
  h' ≠ h ∨ t_kind t = Repeating →
  entry_intact k h t w → entry_intact k h t (fire h' w).
Proof.
  intros Hcase Hin. pose proof Hin as (Hok & Hk & Hh).
  unfold fire. destruct (timers w !! h') as [t'|] eqn:Ht'; [|done].
  pose proof (live_kinded _ Hok _ _ Ht') as Hwk. unfold well_kinded in Hwk.
  pose proof (live_registered _ Hok _ _ Ht') as Hreg.
  destruct (t_cb t') as [c m key|u] eqn:Hcb; cbn [run_callback cb_key] in *.
  - destruct Hwk as [Hkind ->]. rewrite Hkind.
    assert (h' ≠ h) as Hne.
    { intros ->. destruct Hcase as [|Hrep]; [done|]. congruence. }
    apply (entry_intact_ext _ _ _
             (set_scheduledDeletions (delete (deletion_key c m))
                (set_timers (delete h') w))); [done..|].
    apply entry_intact_cancel; [|done|done].
    intros ->. congruence.
  - rewrite Hwk. by apply entry_intact_emit.
Qed.

Lemma entry_intact_reply (u : string) (h : nat) (t : Timer) (ctx : Ctx)
    (text extra : string) (r : option Z) (w : World) :
  entry_intact (typing_key u) h t w →
  entry_intact (typing_key u) h t
    (world_of (replyAndAutoDelete ctx text extra r w)).
Proof.
  intros Hin. rewrite replyAndAutoDelete_run.
  destruct r as [mid|]; unfold world_of; cbn [snd].
  - apply entry_intact_scheduleDelete.
    + intros Heq. by destruct (deletion_key_not_typing (chat_id ctx) mid u).
    + by apply entry_intact_emit.
  - by apply entry_intact_emit.
Qed.

(** X6: a typing loop is touched only by events of its own user.  In a
    reachable state, an event that is not a decision on a submission of
    user [u], a submission by [u], or a bare start or stop for [u] leaves
    the registry entry [typing_<u>] and its interval as they are: replies,
    texts, timers that run, deletions being scheduled, and whatever other
    users do never end it.  No timeout ends it either. *)
Theorem typing_loop_untouched_by_others (es : list Event) (e : Event)
    (u : string) (h : nat) :
  let w := run es init in
  scheduledDeletions w !! typing_key u = Some h →
  typing_target w e ≠ Some u →
  scheduledDeletions (step w e) !! typing_key u = Some h
  ∧ timers (step w e) !! h = Some (mkTimer Repeating (TypingCb u) 4000)
  ∧ live_under (typing_key u) (step w e) = [h].
Proof.
  intros w Hk Htarget.
  pose proof (reachable_ok es) as Hok. fold w in Hok.
  pose proof (typing_entry_exact es u h Hk) as Ht. fold w in Ht.
  set (t := mkTimer Repeating (TypingCb u) 4000) in *.
  assert (entry_intact (typing_key u) h t w) as Hin by done.
  assert (entry_intact (typing_key u) h t (step w e)) as (Hok' & Hk' & Ht').
  { destruct e as [ctx p r|ctx tx r|ctx s a r|ctx s a r|b n a|h'|c m d|u'|u'];
      cbn [step typing_target] in *.
    - unfold on_start. case_match; rewrite then_unit_world;
        by apply entry_intact_reply.
    - rewrite on_text_world; cbv zeta.
      destruct (isPhone (trim tx)); apply entry_intact_reply;
        [by apply entry_intact_userPhones|done].
    - destruct (submissions w !! s) as [data|] eqn:Hs; cbn in Htarget.
      + rewrite (on_approve_found _ _ _ _ _ _ Hs), decide_found_reply; cbv zeta.
        assert (entry_intact (typing_key u) h t
                  (emit (AnswerCbQuery "Approved" false a)
                     (stopTypingLoop (userId data) w))) as Hin1.
        { apply entry_intact_emit, entry_intact_stop; [|done].
          intros Heq%typing_key_inj. congruence. }
        destruct a; [by apply entry_intact_reply|done].
      + rewrite (on_approve_absent _ _ _ _ _ Hs). by apply entry_intact_emit.
    - destruct (submissions w !! s) as [data|] eqn:Hs; cbn in Htarget.
      + rewrite (on_reject_found _ _ _ _ _ _ Hs), decide_found_reply; cbv zeta.
        assert (entry_intact (typing_key u) h t
                  (emit (AnswerCbQuery "Rejected" false a)
                     (stopTypingLoop (userId data) w))) as Hin1.
        { apply entry_intact_emit, entry_intact_stop; [|done].
          intros Heq%typing_key_inj. congruence. }
        destruct a; [by apply entry_intact_reply|done].
      + rewrite (on_reject_absent _ _ _ _ _ Hs). by apply entry_intact_emit.
    - destruct (truthy (Req.code b)) eqn:Hc.
      + rewrite api_log_code_accepted by done. cbn [snd].
        apply entry_intact_emit, entry_intact_typing;
          [|by apply entry_intact_submissions].
        destruct (userId_of (Req.tgUser b)) as [u'|]; [|done].
        intros _ Heq%typing_key_inj. cbn in Heq. congruence.
      + unfold api_log_code. by rewrite Hc.
    - apply entry_intact_fire; [by right|done].
    - apply entry_intact_scheduleDelete; [|done].
      intros Heq. by destruct (deletion_key_not_typing c m u).
    - apply entry_intact_typing; [|done].
      intros Htr Heq%typing_key_inj. rewrite Htr in Htarget. congruence.
    - apply entry_intact_stop; [|done].
      intros Heq%typing_key_inj. congruence. }
  split; [done|]. split; [done|]. by apply live_under_occupied.
Qed.


(** X7: pending deletions do not disturb one another.  In a reachable
    state the deletion pending for one message keeps its entry and its
    timer when the deletion of a different message is scheduled, when
    any other timer runs, and when a typing loop is started or stopped
    for any user. *)
Theorem pending_deletion_undisturbed (es : list Event) (c m : Z) (h : nat) :
  let w := run es init in
  scheduledDeletions w !! deletion_key c m = Some h →
  ∃ t, timers w !! h = Some t
    ∧ (∀ c' m' d, (c', m') ≠ (c, m) →
         entry_intact (deletion_key c m) h t (scheduleDelete c' m' d w))
    ∧ (∀ h', h' ≠ h → entry_intact (deletion_key c m) h t (fire h' w))
    ∧ (∀ u, entry_intact (deletion_key c m) h t (stopTypingLoop u w)
            ∧ entry_intact (deletion_key c m) h t (typing_only_effect u w)).
Proof.
  intros w Hk.
  pose proof (reachable_ok es) as Hok. fold w in Hok.
  destruct (registered_live _ Hok _ _ Hk) as (t & Ht & _).
  assert (entry_intact (deletion_key c m) h t w) as Hin by done.
  exists t. split; [done|]. split; [|split].
  - intros c' m' d Hne. apply entry_intact_scheduleDelete; [|done].
    intros [-> ->]%deletion_key_inj. by destruct Hne.
  - intros h' Hne. apply entry_intact_fire; [by left|done].
  - intros u. split.
    + apply entry_intact_stop; [|done]. apply deletion_key_not_typing.
    + apply entry_intact_typing; [|done]. intros _. apply deletion_key_not_typing.
Qed.

(** ** Decision buttons and their payloads *)

Lemma startsWith_app (p s : string) : startsWith (p +:+ s) p = true.
Proof.
  induction p as [|a p IH]; [by destruct s|].
  change (startsWith (String a (p +:+ s)) (String a p) = true).
  cbn [startsWith]. by rewrite Ascii.eqb_refl, IH.
Qed.

Lemma startsWith_occurs (s p : string) (c : ascii) :
  startsWith s (String c p) = true → occurs c s = true.
Proof.
  destruct s as [|a r]; [done|]. cbn [startsWith occurs].
  intros [Ha _]%andb_true_iff. by rewrite Ha.
Qed.

(** A text with no LF, no CR and no byte 0xE2 (the first byte of U+2028
    and U+2029) holds no line terminator. *)
Lemma dot_star_plain (s : string) :
  occurs (ascii_of_nat 10) s = false →
  occurs (ascii_of_nat 13) s = false →
  occurs (ascii_of_nat 226) s = false →
  dot_star s = s.
Proof.
  induction s as [|a r IH]; [done|]. intros H10 H13 H226.
  cbn [occurs] in H10, H13, H226.
  apply orb_false_iff in H10 as [Ha10 Hr10].
  apply orb_false_iff in H13 as [Ha13 Hr13].
  apply orb_false_iff in H226 as [Ha226 Hr226].
  cbn [dot_star]. unfold at_line_terminator, LF, CR, LS, PS.
  cbn [startsWith]. rewrite Ha10, Ha13, Ha226. cbn [andb orb].
  by rewrite IH.
Qed.

Lemma exec_action_here (p s : string) :
  dot_star s = s → s ≠ "" → exec_action p (p +:+ s) = Some s.
Proof.
  intros Hs Hne.
  assert (∀ data, startsWith data p = true →
                  slice (String.length p) data = s →
                  exec_action p data = Some s) as Hgo.
  { intros data Hp Hsl. destruct data as [|a r]; cbn [exec_action];
      rewrite Hp, Hsl, Hs; by destruct s. }
  apply Hgo; [apply startsWith_app|apply slice_app].
Qed.

Lemma exec_action_absent (c : ascii) (p data : string) :
  occurs c data = false → exec_action (String c p) data = None.
Proof.
  induction data as [|a r IH]; intros Hc.
  - done.
  - cbn [exec_action].
    destruct (startsWith (String a r) (String c p)) eqn:Hp.
    { apply startsWith_occurs in Hp. congruence. }
    apply IH. cbn [occurs] in Hc. by apply orb_false_iff in Hc as [_ Hc].
Qed.

Lemma on_callback_query_approve (ctx : Ctx) (sid : string) (a : bool)
    (r : option Z) :
  dot_star sid = sid → sid ≠ "" →
  on_callback_query ctx ("approve:" +:+ sid) a r = on_approve ctx sid a r.
Proof.
  intros Hs Hne. unfold on_callback_query.
  by rewrite (exec_action_here "approve:" sid Hs Hne).
Qed.

Lemma on_callback_query_reject (ctx : Ctx) (sid : string) (a : bool)
    (r : option Z) :
  dot_star sid = sid → sid ≠ "" → occurs "a" sid = false →
  on_callback_query ctx ("reject:" +:+ sid) a r = on_reject ctx sid a r.
Proof.
  intros Hs Hne Ha. unfold on_callback_query.
  rewrite (exec_action_absent "a" "pprove:" ("reject:" +:+ sid)).
  - by rewrite (exec_action_here "reject:" sid Hs Hne).
  - by rewrite occurs_app, Ha.
Qed.

Lemma submissionId_of_chars (tg : option Req.TgUser) (now : Z) (c : ascii) :
  (∀ tu, tg = Some tu → ∃ z, Req.id tu = JNum z) →
  is_digit c = false → c ≠ "-"%char → c ≠ "_"%char →
  occurs c "unknown" = false →
  occurs c (submissionId_of (userId_of tg) now) = false.
Proof.
  intros Hnum Hd Hm Hu Hunk. unfold submissionId_of.
  rewrite !occurs_app. cbn [occurs].
  rewrite (pretty_Z_no_char c now Hd Hm), !orb_false_r.
  destruct (Ascii.eqb_spec c "_") as [->|_]; [done|]. rewrite orb_false_r.
  unfold userId_of. destruct tg as [tu|]; cbn [opt_chain truthy].
  - destruct (Hnum tu eq_refl) as (z & ->). cbn [truthy to_string].
    destruct (negb (z =? 0)%Z); cbn [truthy_str show_str]; [|done].
    destruct (negb (String.eqb (pretty z) "")); [|done].
    by apply pretty_Z_no_char.
  - done.
Qed.

(** X15: for a submission whose [tgUser.id] is a number or is absent (the
    ids Telegram issues), the payloads of the two buttons of the reviewer
    notification lead back to that submission: pressing Approve runs the
    approve handler on exactly the stored id, and pressing Reject runs
    the reject handler on it. *)
Theorem buttons_lead_to_their_submission (tg : option Req.TgUser) (now : Z)
    (ctx : Ctx) (a : bool) (r : option Z) :
  (∀ tu, tg = Some tu → ∃ z, Req.id tu = JNum z) →
  let sid := submissionId_of (userId_of tg) now in
  decision_keyboard sid
  = [[mkButton "✅ Approve" ("approve:" +:+ sid);
      mkButton "❌ Reject" ("reject:" +:+ sid)]]
  ∧ on_callback_query ctx ("approve:" +:+ sid) a r = on_approve ctx sid a r
  ∧ on_callback_query ctx ("reject:" +:+ sid) a r = on_reject ctx sid a r.
Proof.
  intros Hnum sid.
  assert (∀ c, is_digit c = false → c ≠ "-"%char → c ≠ "_"%char →
               occurs c "unknown" = false → occurs c sid = false) as Hchars
    by (intros; by apply submissionId_of_chars).
  assert (dot_star sid = sid) as Hplain by (apply dot_star_plain; by apply Hchars).
  assert (sid ≠ "") as Hne.
  { unfold sid, submissionId_of. intros Heq.
    assert (occurs "_" (submissionId_of (userId_of tg) now) = true) as Ho
      by apply occurs_middle.
    unfold submissionId_of in Ho. by rewrite Heq in Ho. }
  split; [done|]. split.
  - by apply on_callback_query_approve.
  - apply on_callback_query_reject; [done..|]. by apply Hchars.
Qed.

Lemma at_line_terminator_cons (a : ascii) (s : string) :
  at_line_terminator (String a s)
  = Ascii.eqb (ascii_of_nat 10) a || Ascii.eqb (ascii_of_nat 13) a
    || (Ascii.eqb (ascii_of_nat 226) a
        && match s with
           | String b (String c _) =>
               Ascii.eqb (ascii_of_nat 128) b
               && (Ascii.eqb (ascii_of_nat 168) c
                   || Ascii.eqb (ascii_of_nat 169) c)
           | _ => false
           end).
Proof.
  unfold at_line_terminator, LF, CR, LS, PS. cbn [startsWith].
  rewrite !startsWith_nil, !andb_true_r.
  destruct (Ascii.eqb (ascii_of_nat 10) a), (Ascii.eqb (ascii_of_nat 13) a),
    (Ascii.eqb (ascii_of_nat 226) a); cbn [orb andb]; try done.
  destruct s as [|b [|c s']]; cbn [startsWith]; rewrite ?startsWith_nil;
    try done.
  - by rewrite !andb_false_r.
  - rewrite !andb_true_r.
    by destruct (Ascii.eqb (ascii_of_nat 128) b).
Qed.

Lemma at_line_terminator_cut (a : ascii) (r t : string) :
  at_line_terminator (String a r) = false →
  at_line_terminator (String a (r +:+ LF +:+ t)) = false.
Proof.
  rewrite !at_line_terminator_cons.
  destruct (Ascii.eqb (ascii_of_nat 10) a), (Ascii.eqb (ascii_of_nat 13) a),
    (Ascii.eqb (ascii_of_nat 226) a); cbn [orb andb]; try done.
  destruct r as [|b [|c r']]; try done.
  - intros _. change ("" +:+ LF +:+ t) with (String (ascii_of_nat 10) t).
    by destruct t.
  - intros _.
    change (String b "" +:+ LF +:+ t) with (String b (String (ascii_of_nat 10) t)).
    cbv beta iota. by destruct (Ascii.eqb (ascii_of_nat 128) b).
Qed.

Lemma dot_star_cut (s t : string) :
  dot_star s = s → dot_star (s +:+ LF +:+ t) = s.
Proof.
  induction s as [|a r IH]; intros Hs.
  - change ("" +:+ LF +:+ t) with (String (ascii_of_nat 10) t).
    cbn [dot_star]. by rewrite at_line_terminator_cons.
  - change (String a r +:+ LF +:+ t) with (String a (r +:+ LF +:+ t)).
    cbn [dot_star] in Hs |- *.
    destruct (at_line_terminator (String a r)) eqn:Hterm; [done|].
    injection Hs as Hs.
    by rewrite (at_line_terminator_cut _ _ _ Hterm), IH.
Qed.

Lemma dot_star_no_line_feed (s : string) :
  dot_star s = s → occurs (ascii_of_nat 10) s = false.
Proof.
  induction s as [|a r IH]; [done|]. intros Hs.
  cbn [dot_star] in Hs.
  destruct (at_line_terminator (String a r)) eqn:Hterm; [done|].
  injection Hs as Hs. cbn [occurs]. rewrite (IH Hs), orb_false_r.
  rewrite at_line_terminator_cons in Hterm.
  by destruct (Ascii.eqb (ascii_of_nat 10) a).
Qed.

(** X16: the capture [(.+)] ends at the first line terminator.  A payload
    [approve:<s><LF><t>] yields the id [s], not [s<LF>t]: a submission
    whose user id holds a line feed cannot be reached through its own
    buttons. *)
Theorem capture_stops_at_line_feed (prefix s t : string) :
  dot_star s = s → s ≠ "" →
  exec_action prefix (prefix +:+ s +:+ LF +:+ t) = Some s
  ∧ Some s ≠ Some (s +:+ LF +:+ t).
Proof.
  intros Hs Hne. pose proof (dot_star_cut s t Hs) as Hcut. split.
  - assert (∀ data, startsWith data prefix = true →
                    slice (String.length prefix) data = s +:+ LF +:+ t →
                    exec_action prefix data = Some s) as Hgo.
    { intros data Hp Hsl. destruct data as [|a r]; cbn [exec_action];
        rewrite Hp, Hsl, Hcut; by destruct s. }
    apply Hgo; [apply startsWith_app|apply slice_app].
  - intros [= Heq]. pose proof (dot_star_no_line_feed s Hs) as Ho.
    rewrite Heq in Ho.
    change (s +:+ LF +:+ t) with (s +:+ String (ascii_of_nat 10) t) in Ho.
    by rewrite occurs_middle in Ho.
Qed.

(** X17: the triggers are not anchored and the approve trigger is tried
    first, so a payload [reject:approve:<t>] is taken by the approve
    handler, for the id [t]. *)
Theorem reject_payload_taken_by_approve (ctx : Ctx) (t : string) (a : bool)
    (r : option Z) :
  dot_star t = t → t ≠ "" →
  on_callback_query ctx ("reject:approve:" +:+ t) a r = on_approve ctx t a r.
Proof.
  intros Ht Hne. unfold on_callback_query.
  assert (exec_action "approve:" ("reject:approve:" +:+ t)
          = exec_action "approve:" ("approve:" +:+ t)) as -> by done.
  by rewrite (exec_action_here "approve:" t Ht Hne).
Qed.


(** ** The stores *)

Lemma typing_only_effect_stores (u : option string) (w : World) :
  submissions (typing_only_effect u w) = submissions w
  ∧ userPhones (typing_only_effect u w) = userPhones w.
Proof.
  unfold typing_only_effect. destruct (truthy_str u); [|done].
  by destruct (stopTypingLoop_frame u w) as (_ & Hs & Hp & _).
Qed.

Lemma decide_found_userPhones (label text : string) (ctx : Ctx)
    (u : option string) (a : bool) (r : option Z) (w : World) :
  userPhones (world_of (decide_found label text ctx u a r w)) = userPhones w.
Proof.
  rewrite decide_found_reply; cbv zeta.
  destruct (stopTypingLoop_frame u w) as (_ & _ & Hp & _).
  destruct a; [|done].
  match goal with |- context [replyAndAutoDelete ?c ?t ?e ?r ?w0] =>
    destruct (replyAndAutoDelete_frame c t e r w0) as (_ & -> & _) end.
  done.
Qed.

Lemma fire_stores (h : nat) (w : World) :
  submissions (fire h w) = submissions w ∧ userPhones (fire h w) = userPhones w.
Proof.
  unfold fire. destruct (timers w !! h) as [t|]; [|done].
  by destruct (t_cb t), (t_kind t).
Qed.

Lemma api_log_code_stores (b : Req.Body) (n : Z) (a : bool) (w : World) :
  userPhones (api_log_code b n a w).2 = userPhones w
  ∧ submissions (api_log_code b n a w).2
    = if truthy (Req.code b)
      then <[submissionId_of (userId_of (Req.tgUser b)) n := record_of b w]>
             (submissions w)
      else submissions w.
Proof.
  destruct (truthy (Req.code b)) eqn:Hc.
  - rewrite api_log_code_accepted by done. cbn [snd userPhones submissions emit].
    match goal with |- context [typing_only_effect ?u ?w0] =>
      destruct (typing_only_effect_stores u w0) as (-> & ->) end.
    done.
  - unfold api_log_code. by rewrite Hc.
Qed.

Lemma step_userPhones (w : World) (e : Event) :
  userPhones (step w e)
  = match e with
    | EvText ctx text _ =>
        if isPhone (trim text)
        then <[pretty (from_id ctx) := trim text]> (userPhones w)
        else userPhones w
    | _ => userPhones w
    end.
Proof.
  destruct e as [ctx p r|ctx tx r|ctx s a r|ctx s a r|b n a|h|c m d|u|u];
      cbn [step].
    - unfold on_start. case_match; rewrite then_unit_world;
        match goal with |- context [replyAndAutoDelete ?c ?t ?e ?r ?w0] =>
          by destruct (replyAndAutoDelete_frame c t e r w0) as (_ & -> & _) end.
    - rewrite on_text_world; cbv zeta.
      destruct (isPhone (trim tx));
        match goal with |- context [replyAndAutoDelete ?c ?t ?e ?r ?w0] =>
          by destruct (replyAndAutoDelete_frame c t e r w0) as (_ & -> & _) end.
    - destruct (submissions w !! s) as [data|] eqn:Hs.
      + rewrite (on_approve_found _ _ _ _ _ _ Hs).
        apply decide_found_userPhones.
      + by rewrite (on_approve_absent _ _ _ _ _ Hs).
    - destruct (submissions w !! s) as [data|] eqn:Hs.
      + rewrite (on_reject_found _ _ _ _ _ _ Hs).
        apply decide_found_userPhones.
      + by rewrite (on_reject_absent _ _ _ _ _ Hs).
    - by destruct (api_log_code_stores b n a w) as (-> & _).
    - by destruct (fire_stores h w) as (_ & ->).
    - by destruct (scheduleDelete_frame c m d w) as (_ & _ & -> & _).
    - by destruct (typing_only_effect_stores u w) as (_ & ->).
    - by destruct (stopTypingLoop_frame u w) as (_ & _ & -> & _).
Qed.

(** X11: the Phone Directory is written by one thing only, a text that
    the heuristic takes for a phone number, and then under the sender's
    id alone: every other event, and every text not taken for a phone,
    leaves the directory as it is, and the entries of other senders are
    never touched. *)
Theorem phone_directory_writes (w : World) (e : Event) :
  userPhones (step w e)
  = match e with
    | EvText ctx text _ =>
        if isPhone (trim text)
        then <[pretty (from_id ctx) := trim text]> (userPhones w)
        else userPhones w
    | _ => userPhones w
    end
  ∧ ∀ ctx text r z, e = EvText ctx text r → z ≠ from_id ctx →
      userPhones (step w e) !! pretty z = userPhones w !! pretty z.
Proof.
  pose proof (step_userPhones w e) as Hstep.
  split; [done|].
  intros ctx text r z -> Hz. rewrite Hstep.
  destruct (isPhone (trim text)); [|done].
  rewrite lookup_insert_ne; [done|]. intros Heq. by apply (inj pretty) in Heq.
Qed.

(** X12: the Submission Store is written by one thing only, a submission
    whose code passes the guard, which stores its record under its id;
    no event ever removes a record.  So along any run the set of stored
    ids, like the set of users with a phone entry, only grows. *)
Theorem stores_only_grow (w : World) :
  (∀ e, submissions (step w e)
        = match e with
          | EvLogCode b n _ =>
              if truthy (Req.code b)
              then <[submissionId_of (userId_of (Req.tgUser b)) n
                     := record_of b w]> (submissions w)
              else submissions w
          | _ => submissions w
          end)
  ∧ (∀ es, dom (submissions w) ⊆ dom (submissions (run es w))
           ∧ dom (userPhones w) ⊆ dom (userPhones (run es w))).
Proof.
  assert (∀ w e, submissions (step w e)
    = match e with
      | EvLogCode b n _ =>
          if truthy (Req.code b)
          then <[submissionId_of (userId_of (Req.tgUser b)) n
                 := record_of b w]> (submissions w)
          else submissions w
      | _ => submissions w
      end) as Hstep.
  { clear w. intros w e.
    destruct e as [ctx p r|ctx tx r|ctx s a r|ctx s a r|b n a|h|c m d|u|u];
      cbn [step].
    - unfold on_start. case_match; rewrite then_unit_world;
        match goal with |- context [replyAndAutoDelete ?c ?t ?e ?r ?w0] =>
          by destruct (replyAndAutoDelete_frame c t e r w0) as (_ & _ & ->) end.
    - rewrite on_text_world; cbv zeta.
      destruct (isPhone (trim tx));
        match goal with |- context [replyAndAutoDelete ?c ?t ?e ?r ?w0] =>
          by destruct (replyAndAutoDelete_frame c t e r w0) as (_ & _ & ->) end.
    - destruct (submissions w !! s) as [data|] eqn:Hs.
      + rewrite (on_approve_found _ _ _ _ _ _ Hs).
        apply decide_found_submissions.
      + by rewrite (on_approve_absent _ _ _ _ _ Hs).
    - destruct (submissions w !! s) as [data|] eqn:Hs.
      + rewrite (on_reject_found _ _ _ _ _ _ Hs).
        apply decide_found_submissions.
      + by rewrite (on_reject_absent _ _ _ _ _ Hs).
    - by destruct (api_log_code_stores b n a w) as (_ & ->).
    - by destruct (fire_stores h w) as (-> & _).
    - by destruct (scheduleDelete_frame c m d w) as (_ & -> & _).
    - by destruct (typing_only_effect_stores u w) as (-> & _).
    - by destruct (stopTypingLoop_frame u w) as (_ & -> & _). }
  split; [apply Hstep|].
  intros es. revert w. induction es as [|e es IH]; intros w; [done|].
  cbn [run fold_left]. destruct (IH (step w e)) as [IHs IHp].
  split.
  - etrans; [|exact IHs]. rewrite Hstep.
    destruct e; try done. case_match; [|done].
    rewrite dom_insert_L. apply union_subseteq_r.
  - etrans; [|exact IHp].
    rewrite step_userPhones.
    destruct e; try done. case_match; [|done].
    rewrite dom_insert_L. apply union_subseteq_r.
Qed.


Lemma phones_ok_step (w : World) (e : Event) :
  phones_ok w → phones_ok (step w e).
Proof.
  intros Hok k p. rewrite step_userPhones.
  destruct e; try apply Hok. case_match; [|apply Hok].
  intros [[_ <-]|[_ Hk]]%lookup_insert_Some; [done|by eapply Hok].
Qed.

Lemma phones_ok_run (es : list Event) (w : World) :
  phones_ok w → phones_ok (run es w).
Proof.
  revert w. induction es as [|e es IH]; intros w Hok; [done|].
  apply IH. by apply phones_ok_step.
Qed.

(** X10: in every reachable state each entry of the Phone Directory is a
    text that passed the phone heuristic, hence is not empty; so the
    contact the intake records for a user is the directory entry whenever
    there is one, and "Unknown phone" exactly when there is none. *)
Theorem stored_phones_are_phones (es : list Event) :
  let w := run es init in
  (∀ k p, userPhones w !! k = Some p → isPhone p = true ∧ p ≠ "")
  ∧ (∀ u, u ≠ "" →
       telegramPhone_of (Some u) w = default "Unknown phone" (userPhones w !! u))
  ∧ telegramPhone_of None w = "Unknown phone".
Proof.
  intros w.
  assert (phones_ok w) as Hok.
  { apply phones_ok_run. intros k p Hk. cbn in Hk. by rewrite lookup_empty in Hk. }
  assert (∀ k p, userPhones w !! k = Some p → isPhone p = true ∧ p ≠ "")
    as Hphones.
  { intros k p Hk. pose proof (Hok k p Hk) as Hp. split; [done|].
    intros ->. done. }
  split; [done|]. split; [|done].
  intros u Hu. unfold telegramPhone_of. cbn [truthy_str show_str].
  destruct (String.eqb_spec u ""); [done|]. cbn [negb].
  destruct (userPhones w !! u) as [p|] eqn:Hp; [|done].
  destruct (Hphones u p Hp) as [_ Hne].
  by destruct (String.eqb_spec p "").
Qed.

Lemma submissionId_of_label (u : option string) (n : Z) :
  submissionId_of u n = id_label u +:+ String "_" (pretty n).
Proof. done. Qed.

Lemma submissionId_of_inj (u u' : option string) (n n' : Z) :
  submissionId_of u n = submissionId_of u' n'
  ↔ id_label u = id_label u' ∧ n = n'.
Proof.
  rewrite !submissionId_of_label. split.
  - intros Heq. apply cut_right_unique in Heq as [Hl Hn];
      [|by apply pretty_Z_no_char..].
    split; [done|]. by apply (inj pretty).
  - by intros [-> ->].
Qed.

(** X8: a submission id determines its timestamp and its user part, and
    nothing more: two ids are equal exactly when the timestamps are equal
    and the user parts are, where a submission without user id has the
    user part "unknown", the same as a user whose id is the text
    "unknown". *)
Theorem submission_id_injective (u u' : option string) (n n' : Z) :
  (submissionId_of u n = submissionId_of u' n'
   ↔ id_label u = id_label u' ∧ n = n')
  ∧ submissionId_of None n = submissionId_of (Some "unknown") n
  ∧ (∀ s, s ≠ "" → id_label (Some s) = s).
Proof.
  split; [apply submissionId_of_inj|split; [done|]].
  intros s Hs. unfold id_label. cbn [truthy_str show_str].
    by destruct (String.eqb_spec s "").
Qed.

Lemma telegramPhone_of_ext (u : option string) (w w' : World) :
  userPhones w' = userPhones w → telegramPhone_of u w' = telegramPhone_of u w.
Proof. unfold telegramPhone_of. by intros ->. Qed.

Lemma record_of_ext (b : Req.Body) (w w' : World) :
  userPhones w' = userPhones w → record_of b w' = record_of b w.
Proof. intros H. unfold record_of. by rewrite (telegramPhone_of_ext _ _ _ H). Qed.

(** X9: ids are not checked for collisions.  Of two submissions that
    pass the guard, the later one is always retrievable under its id; the
    earlier one is retrievable as well exactly when the ids differ, that
    is when the timestamps or the user parts differ; when both agree the
    later record replaces the earlier one and the store holds a single
    record for the two. *)
Theorem colliding_submissions_overwrite (w : World) (b1 b2 : Req.Body)
    (n1 n2 : Z) (a1 a2 : bool) :
  truthy (Req.code b1) = true →
  truthy (Req.code b2) = true →
  let u1 := userId_of (Req.tgUser b1) in
  let u2 := userId_of (Req.tgUser b2) in
  let sid1 := submissionId_of u1 n1 in
  let sid2 := submissionId_of u2 n2 in
  let w2 := (api_log_code b2 n2 a2 (api_log_code b1 n1 a1 w).2).2 in
  submissions w2 !! sid2 = Some (record_of b2 w)
  ∧ (sid1 ≠ sid2 → submissions w2 !! sid1 = Some (record_of b1 w))
  ∧ (sid1 = sid2 →
       submissions w2 = <[sid2 := record_of b2 w]> (submissions w))
  ∧ (sid1 = sid2 ↔ id_label u1 = id_label u2 ∧ n1 = n2).
Proof.
  intros Hc1 Hc2 u1 u2 sid1 sid2 w2.
  set (w1 := (api_log_code b1 n1 a1 w).2).
  destruct (api_log_code_stores b1 n1 a1 w) as (Hp1 & Hs1).
  destruct (api_log_code_stores b2 n2 a2 w1) as (_ & Hs2).
  rewrite Hc1 in Hs1. rewrite Hc2 in Hs2. fold w1 in Hp1, Hs1.
  fold u1 sid1 in Hs1. fold u2 sid2 in Hs2.
  rewrite (record_of_ext b2 w w1 Hp1) in Hs2.
  unfold w2. fold w1. rewrite Hs2, Hs1.
  split; [apply lookup_insert_eq|]. split; [|split].
  - intros Hne. rewrite lookup_insert_ne by done. apply lookup_insert_eq.
  - intros ->. apply insert_insert_eq.
  - apply submissionId_of_inj.
Qed.

(** X13: when the transport refuses the reviewer notification, the
    endpoint answers 500 "Internal server error", but what ran before
    the notification stays: the record is in the store and the typing
    loop of the user is running, exactly as after a successful
    submission. *)
Theorem failed_notification_keeps_the_submission (w : World) (b : Req.Body)
    (now : Z) :
  truthy (Req.code b) = true →
  let ok := api_log_code b now true w in
  let ko := api_log_code b now false w in
  let uid := userId_of (Req.tgUser b) in
  ko.1 = mkResponse 500 false (Some "Internal server error")
  ∧ ok.1 = mkResponse 200 true None
  ∧ submissions ko.2 = submissions ok.2
  ∧ timers ko.2 = timers ok.2
  ∧ scheduledDeletions ko.2 = scheduledDeletions ok.2
  ∧ submissions ko.2 !! submissionId_of uid now = Some (record_of b w)
  ∧ (∀ u, uid = Some u →
       scheduledDeletions ko.2 !! typing_key u = Some (next_handle w)
       ∧ timers ko.2 !! next_handle w
         = Some (mkTimer Repeating (TypingCb u) 4000))
  ∧ ∃ text kb, new_effects w ko.2 = [SendMessage ADMIN_CHAT_ID text kb false].
Proof.
  intros Hc ok ko uid. unfold ok, ko.
  rewrite !api_log_code_accepted by done. cbn [fst snd].
  split; [done|]. split; [done|]. split; [done|]. split; [done|].
  split; [done|]. split; [|split].
  - cbn [submissions emit].
    match goal with |- context [typing_only_effect ?u ?w0] =>
      destruct (typing_only_effect_stores u w0) as (-> & _) end.
    cbn. apply lookup_insert_eq.
  - intros u Hu. fold uid. rewrite Hu.
    cbn [scheduledDeletions timers emit].
    match goal with |- context [typing_only_effect (Some ?u) ?w0] =>
      destruct (typing_registers u w0 (userId_of_truthy _ _ Hu))
        as (Hreg & Ht & _) end.
    done.
  - eexists _, _. apply new_effects_app. cbn [outbox emit].
    match goal with |- context [typing_only_effect ?u ?w0] =>
      destruct (typing_only_effect_frame u w0) as (-> & _) end.
    done.
Qed.

(** X14: the start command echoes a verification code exactly when the
    payload starts with "verify_": the reply then shows the rest of the
    payload, verbatim and whole, between the bold tags, even when that
    rest itself contains "verify_".  Any other payload, the empty one
    included, gets the welcome text.  Either way the Phone Directory and
    the Submission Store are left alone. *)
Theorem start_command_echoes_code (ctx : Ctx) (r : option Z) (w : World) :
  (∀ code,
     world_of (on_start ctx ("verify_" +:+ code) r w)
     = world_of (replyAndAutoDelete ctx
                   ("Verification code: <b>" +:+ code +:+ "</b>" +:+ nl +:+ nl
                    +:+ "Paki-type ang Telegram phone number mo.")
                   "HTML" r w))
  ∧ (∀ payload, startsWith payload "verify_" = false →
       world_of (on_start ctx payload r w)
       = world_of (replyAndAutoDelete ctx
                     "Welcome! Paki-send ang phone number or code." "HTML" r w))
  ∧ (∀ payload,
       userPhones (world_of (on_start ctx payload r w)) = userPhones w
       ∧ submissions (world_of (on_start ctx payload r w)) = submissions w
       ∧ ∃ text, new_effects w (world_of (on_start ctx payload r w))
                 = [Reply (chat_id ctx) text "HTML" r]).
Proof.
  split; [|split].
  - intros code. unfold on_start.
    change (truthy (JStr ("verify_" +:+ code))
            && startsWith ("verify_" +:+ code) "verify_")
      with (startsWith code "").
    rewrite startsWith_nil, then_unit_world.
    change (replace "verify_" "" ("verify_" +:+ code))
      with (if startsWith code "" then code else
              String "v" (replace "verify_" ""
                ("erify_" +:+ code))).
    by rewrite startsWith_nil.
  - intros payload Hp. unfold on_start.
    by rewrite Hp, andb_false_r, then_unit_world.
  - intros payload. unfold on_start.
    case_match; rewrite then_unit_world;
      match goal with |- context [replyAndAutoDelete ?c ?t ?e ?r ?w0] =>
        destruct (replyAndAutoDelete_frame c t e r w0) as (Ho & -> & ->) end;
      (split; [done|]; split; [done|]; eexists; by apply new_effects_app).
Qed.


Lemma userPhones_run_other (z : Z) (es : list Event) (w : World) :
  no_phone_from z es →
  userPhones (run es w) !! pretty z = userPhones w !! pretty z.
Proof.
  revert w. induction es as [|e es IH]; intros w Hes; [done|].
  apply Forall_cons in Hes as [He Hes]. cbn [run fold_left].
  etrans; [by apply IH|]. rewrite step_userPhones.
  destruct e as [| ctx text r | | | | | | |]; try done.
  destruct (isPhone (trim text)) eqn:Hp; [|done].
  rewrite lookup_insert_ne; [done|].
  intros Heq%(inj pretty). apply He in Heq. congruence.
Qed.

(** X18: the phone a Telegram user sent is the contact of that user's
    next submission.  The text handler files the phone under
    [from.id.toString()], the intake looks it up under
    [String(tgUser.id)], and for a numeric id other than 0 the two agree:
    after user [z] sent a text taken for a phone, and whatever happened
    since short of another such text from [z], a submission with
    [tgUser.id = z] records that text, trimmed, as its contact.  With the
    id 0 the intake treats the user as absent and records
    "Unknown phone". *)
Theorem phone_follows_user (w : World) (z chat : Z) (text : string)
    (r : option Z) (es : list Event) (b : Req.Body) (tu : Req.TgUser)
    (now : Z) (a : bool) :
  isPhone (trim text) = true →
  no_phone_from z es →
  truthy (Req.code b) = true →
  Req.tgUser b = Some tu →
  Req.id tu = JNum z →
  let w1 := run es (step w (EvText (mkCtx chat z) text r)) in
  let w2 := (api_log_code b now a w1).2 in
  let uid := userId_of (Req.tgUser b) in
  ∃ data, submissions w2 !! submissionId_of uid now = Some data
    ∧ telegramPhone data = (if (z =? 0)%Z then "Unknown phone" else trim text)
    ∧ userId data = (if (z =? 0)%Z then None else Some (pretty z)).
Proof.
  intros Hphone Hes Hc Htg Hid w1 w2 uid.
  destruct (api_log_code_stores b now a w1) as (_ & Hs). rewrite Hc in Hs.
  fold w2 uid in Hs. exists (record_of b w1).
  split; [rewrite Hs; apply lookup_insert_eq|].
  assert (userPhones w1 !! pretty z = Some (trim text)) as Hentry.
  { unfold w1. rewrite (userPhones_run_other z es _ Hes).
    rewrite step_userPhones, Hphone. cbn [from_id]. apply lookup_insert_eq. }
  assert (trim text ≠ "") as Hne by (intros Heq; by rewrite Heq in Hphone).
  assert (userId_of (Req.tgUser b)
          = if (z =? 0)%Z then None else Some (pretty z)) as Hu.
  { unfold userId_of. rewrite Htg. cbn [opt_chain]. rewrite Hid.
    cbn [truthy to_string]. by destruct (z =? 0)%Z. }
  unfold record_of. cbn [telegramPhone userId]. rewrite Hu.
  split; [|done]. unfold telegramPhone_of.
  destruct (z =? 0)%Z; [done|]. cbn [truthy_str show_str].
  pose proof (to_string_truthy (JNum z)) as Htr. cbn [truthy to_string] in Htr.
  destruct (String.eqb_spec (pretty z) "") as [Heq|_].
  { destruct (pretty_Z_head z) as (c & Hc' & _). by rewrite Heq in Hc'. }
  cbn [negb]. rewrite Hentry. by destruct (String.eqb_spec (trim text) "").
Qed.

End Bot.

(** ** The sample session, run

    The statements above at the sample session, with "-1001" for
    ADMIN_CHAT_ID and 1700000000000 for [Date.now()]. *)

(** C1, as the specification states it, fails on the sample session: the
    reviewer approves submission "42_1700000000000" twice; the record is
    still in the store after the first approval, and the second click is
    acknowledged "Approved" and confirmed again instead of being answered
    "Not found or expired". *)
Lemma C1_second_decision_is_not_refused :
  let w0 := run "-1001" sample_session init in
  let sid := "42_1700000000000" in
  let w1 := world_of (on_approve reviewer_chat sid true (Some 12) w0) in
  let w2 := world_of (on_approve reviewer_chat sid true (Some 13) w1) in
  submissions w0 !! sid = Some ana_record
  ∧ new_effects w0 w1
    = [AnswerCbQuery "Approved" false true;
       Reply 7000 (approved_text ana_record) "HTML" (Some 12)]
  ∧ submissions w1 !! sid = Some ana_record
  ∧ new_effects w1 w2
    = [AnswerCbQuery "Approved" false true;
       Reply 7000 (approved_text ana_record) "HTML" (Some 13)]
  ∧ new_effects w1 w2 ≠ [AnswerCbQuery "Not found or expired" true true].
Proof.
  vm_compute. repeat split; try reflexivity. intros H. discriminate H.
Qed.

Lemma C1_decided_submission_witness :
  let w := run "-1001" sample_session init in
  let sid := "42_1700000000000" in
  submissions w !! sid = Some ana_record
  ∧ submissions (world_of (on_approve reviewer_chat sid true (Some 12) w))
    = submissions w.
Proof.
  assert (submissions (run "-1001" sample_session init) !! "42_1700000000000"
          = Some ana_record) as H by (vm_compute; reflexivity).
  split; [exact H|].
  exact (proj1 (C1_decided_submission_stays_retrievable
                  (run "-1001" sample_session init) reviewer_chat reviewer_chat
                  "42_1700000000000" ana_record true true (Some 12) (Some 13) H)).
Defined.

Lemma C5_start_twice_witness :
  truthy (Req.code ana_post) = true
  ∧ userId_of (Req.tgUser ana_post) = Some "42"
  ∧ live_under (typing_key "42")
      (api_log_code "-1001" ana_post 1700000000001 true
         (api_log_code "-1001" ana_post 1700000000000 true init).2).2
    = [1%nat].
Proof.
  assert (truthy (Req.code ana_post) = true) as Hc by reflexivity.
  assert (userId_of (Req.tgUser ana_post) = Some "42") as Hu
    by (vm_compute; reflexivity).
  split; [exact Hc|]. split; [exact Hu|].
  exact (proj1 (proj2 (C5_start_twice_single_loop "-1001" [] ana_post ana_post
                         1700000000000 1700000000001 true true "42"
                         Hc Hc Hu Hu))).
Defined.

Lemma C7_decision_witness :
  let w := run "-1001" sample_session init in
  let sid := "42_1700000000000" in
  submissions w !! sid = Some ana_record
  ∧ new_effects w (world_of (on_approve reviewer_chat sid true (Some 12) w))
    = [AnswerCbQuery "Approved" false true;
       Reply 7000 (approved_text ana_record) "HTML" (Some 12)].
Proof.
  assert (submissions (run "-1001" sample_session init) !! "42_1700000000000"
          = Some ana_record) as H by (vm_compute; reflexivity).
  split; [exact H|].
  exact (proj1 (proj1 (C7_decision_on_stored_submission "-1001" sample_session
                         reviewer_chat "42_1700000000000" ana_record H)
                  true (Some 12))).
Defined.

Lemma C9_submission_without_user_witness :
  truthy (Req.code anonymous_post) = true
  ∧ truthy (opt_chain Req.id (Req.tgUser anonymous_post)) = false
  ∧ (api_log_code "-1001" anonymous_post 1700000000000 true init).1
    = mkResponse 200 true None.
Proof.
  assert (truthy (Req.code anonymous_post) = true) as Hc by reflexivity.
  assert (truthy (opt_chain Req.id (Req.tgUser anonymous_post)) = false)
    as Hid by reflexivity.
  split; [exact Hc|]. split; [exact Hid|].
  exact (proj1 (C9_submission_without_user "-1001" init anonymous_post
                  1700000000000 Hc Hid)).
Defined.

(** ** The further properties at the sample session *)

Lemma deletion_fires_once_witness :
  let w := run "-1001" sample_session init in
  scheduledDeletions w !! deletion_key 42 11 = Some 0%nat
  ∧ new_effects w (fire 0 w) = [DeleteMessage 42 11].
Proof.
  assert (scheduledDeletions (run "-1001" sample_session init)
            !! deletion_key 42 11 = Some 0%nat) as H by (vm_compute; reflexivity).
  split; [exact H|].
  exact (proj1 (deletion_fires_once "-1001" sample_session 42 11 0%nat H)).
Defined.

Lemma typing_ticks_witness :
  let w := run "-1001" sample_session init in
  scheduledDeletions w !! typing_key "42" = Some 1%nat
  ∧ outbox (Nat.iter 2 (fire 1) w)
    = (outbox w ++ [SendChatAction "42" "typing"; SendChatAction "42" "typing"])%list.
Proof.
  assert (scheduledDeletions (run "-1001" sample_session init)
            !! typing_key "42" = Some 1%nat) as H by (vm_compute; reflexivity).
  split; [exact H|].
  exact (f_equal outbox (typing_ticks "-1001" sample_session "42" 1%nat 2%nat H)).
Defined.

Lemma start_then_stop_witness :
  truthy_str (Some "42") = true
  ∧ timers (stopTypingLoop (Some "42") (typing_only_effect (Some "42") init))
    = timers (stopTypingLoop (Some "42") init).
Proof.
  assert (truthy_str (Some "42") = true) as H by reflexivity.
  split; [exact H|].
  exact (proj1 (start_then_stop "-1001" [] "42" H)).
Defined.

Lemma typing_loop_untouched_witness :
  let w := run "-1001" sample_session init in
  scheduledDeletions w !! typing_key "42" = Some 1%nat
  ∧ typing_target w (EvTimer 0) ≠ Some "42"
  ∧ scheduledDeletions (step "-1001" w (EvTimer 0)) !! typing_key "42"
    = Some 1%nat.
Proof.
  assert (scheduledDeletions (run "-1001" sample_session init)
            !! typing_key "42" = Some 1%nat) as H by (vm_compute; reflexivity).
  assert (typing_target (run "-1001" sample_session init) (EvTimer 0)
          ≠ Some "42") as H' by (intros Heq; discriminate Heq).
  split; [exact H|]. split; [exact H'|].
  exact (proj1 (typing_loop_untouched_by_others "-1001" sample_session
                  (EvTimer 0) "42" 1%nat H H')).
Defined.

Lemma pending_deletion_undisturbed_witness :
  let w := run "-1001" sample_session init in
  scheduledDeletions w !! deletion_key 42 11 = Some 0%nat
  ∧ ∃ t, timers w !! 0%nat = Some t
         ∧ entry_intact (deletion_key 42 11) 0 t (fire 1 w).
Proof.
  assert (scheduledDeletions (run "-1001" sample_session init)
            !! deletion_key 42 11 = Some 0%nat) as H by (vm_compute; reflexivity).
  split; [exact H|].
  destruct (pending_deletion_undisturbed "-1001" sample_session 42 11 0%nat H)
    as (t & Ht & _ & Hfire & _).
  exists t. split; [exact Ht|]. apply Hfire. discriminate.
Defined.

Lemma colliding_submissions_witness :
  truthy (Req.code ana_post) = true
  ∧ submissions
      (api_log_code "-1001" ana_post 1700000000000 true
         (api_log_code "-1001" ana_post 1700000000000 true init).2).2
    = <["42_1700000000000" := record_of ana_post init]> ∅.
Proof.
  assert (truthy (Req.code ana_post) = true) as H by reflexivity.
  split; [exact H|].
  exact (proj1 (proj2 (proj2 (colliding_submissions_overwrite "-1001" init
           ana_post ana_post 1700000000000 1700000000000 true true H H)))
           eq_refl).
Defined.

Lemma failed_notification_witness :
  truthy (Req.code ana_post) = true
  ∧ (api_log_code "-1001" ana_post 1700000000000 false init).1
    = mkResponse 500 false (Some "Internal server error").
Proof.
  assert (truthy (Req.code ana_post) = true) as H by reflexivity.
  split; [exact H|].
  exact (proj1 (failed_notification_keeps_the_submission "-1001" init ana_post
                  1700000000000 H)).
Defined.

Lemma buttons_lead_witness :
  (∀ tu, Some ana = Some tu → ∃ z, Req.id tu = JNum z)
  ∧ on_callback_query reviewer_chat ("approve:" +:+ "42_1700000000000") true (Some 12)
    = on_approve reviewer_chat "42_1700000000000" true (Some 12).
Proof.
  assert (∀ tu, Some ana = Some tu → ∃ z, Req.id tu = JNum z) as H.
  { intros tu Heq. injection Heq as <-. exists 42%Z. reflexivity. }
  split; [exact H|].
  exact (proj1 (proj2 (buttons_lead_to_their_submission (Some ana)
                         1700000000000 reviewer_chat true (Some 12) H))).
Defined.

Lemma capture_stops_witness :
  dot_star "a" = "a" ∧ "a" ≠ ""
  ∧ exec_action "approve:" ("approve:" +:+ "a" +:+ LF +:+ "b_17") = Some "a".
Proof.
  assert (dot_star "a" = "a") as H by reflexivity.
  assert ("a" ≠ "") as H' by discriminate.
  split; [exact H|]. split; [exact H'|].
  exact (proj1 (capture_stops_at_line_feed "approve:" "a" "b_17" H H')).
Defined.

Lemma reject_payload_witness :
  dot_star "x_17" = "x_17" ∧ "x_17" ≠ ""
  ∧ on_callback_query reviewer_chat ("reject:approve:" +:+ "x_17") true None
    = on_approve reviewer_chat "x_17" true None.
Proof.
  assert (dot_star "x_17" = "x_17") as H by reflexivity.
  assert ("x_17" ≠ "") as H' by discriminate.
  split; [exact H|]. split; [exact H'|].
  exact (reject_payload_taken_by_approve reviewer_chat "x_17" true None H H').
Defined.

Lemma phone_follows_user_witness :
  isPhone (trim "+639171234567") = true
  ∧ no_phone_from 42 []
  ∧ ∃ data,
      submissions (api_log_code "-1001" ana_post 1700000000000 true
                     (step "-1001" init (EvText ana_chat "+639171234567" (Some 11)))).2
        !! "42_1700000000000" = Some data
      ∧ telegramPhone data = "+639171234567".
Proof.
  assert (isPhone (trim "+639171234567") = true) as H by reflexivity.
  assert (no_phone_from 42 []) as H' by constructor.
  split; [exact H|]. split; [exact H'|].
  destruct (phone_follows_user "-1001" init 42 42 "+639171234567" (Some 11) []
              ana_post ana 1700000000000 true H H' eq_refl eq_refl eq_refl)
    as (data & Hs & Hp & _).
  exists data. split; [exact Hs|exact Hp].
Defined.
